(** * gocipe/graphql, type.go: schema generation from struct definitions

    A shallow embedding of [field], [FieldType], [relationship] and
    [RelationshipType] of type.go, and the properties of the two
    classifiers.

    Conventions of the embedding:
    - a Go result tuple is a Rocq tuple; the [error] component is [nil]
      ([None]) on success, as in Go;
    - a Go pointer is an [option] ([None] is the nil pointer);
    - a Go map is a [gmap]; reading a missing key gives the zero value
      and [ok = false];
    - the two maps handed to [RelationshipType] are reference values,
      so they live in an explicit store threaded through every call;
    - a nil dereference ends the call with [Panic]. *)

From Stdlib Require Import ZArith Ascii String.
From stdpp Require Import gmap strings list fin_maps.

Local Open Scope string_scope.
Local Open Scope Z_scope.

(** ** Package reflect: the part of a struct definition the code reads *)

Module reflect.

(** reflect.Kind, in the order of the Go declaration. *)
Inductive Kind : Set :=
| Invalid | Bool
| Int | Int8 | Int16 | Int32 | Int64
| Uint | Uint8 | Uint16 | Uint32 | Uint64 | Uintptr
| Float32 | Float64 | Complex64 | Complex128
| Array | Chan | Func | Interface | Map | Pointer | Slice
| String | Struct | UnsafePointer.

#[global] Instance Kind_eq_dec : EqDecision Kind.
Proof. solve_decision. Defined.

(** What type.go asks of the reflect.Type of a field: Kind(), PkgPath()
    and Name(). *)
Record Type_ : Set := mkType {
  Kind_ : Kind;
  PkgPath : string;
  TypeName : string
}.

(** A struct tag in parsed form: the key/value pairs in the order the
    tag string lists them. *)
Definition StructTag : Set := list (string * string).

(** StructTag.Lookup: the value of the first pair with that key, and
    whether there is one. *)
Fixpoint Lookup (tag : StructTag) (key : string) : string * bool :=
  match tag with
  | [] => ("", false)
  | (k, v) :: rest => if String.eqb k key then (v, true) else Lookup rest key
  end.

(** reflect.StructField: Name, Type and Tag. *)
Record StructField : Set := mkField {
  Name : string;
  Typ : Type_;
  Tag : StructTag
}.

(** A struct type: Name() and the fields that NumField()/Field(i)
    enumerate. *)
Record StructType : Set := mkStruct {
  StructName : string;
  Fields : list StructField
}.

(** reflect.TypeOf of a value, as far as [NumField] cares: a struct
    type, or anything else (nil included), on which NumField panics. *)
Inductive TypeOf : Set :=
| OfStruct (t : StructType)
| OfOther.

End reflect.

(** ** Package strconv *)

Module strconv.

Inductive NumError : Set := ErrSyntax.

(** strconv.ParseBool: the two case lists of its switch. *)
Definition ParseBool (str : string) : bool * option NumError :=
  if existsb (String.eqb str) ["1"; "t"; "T"; "TRUE"; "true"; "True"]
  then (true, None)
  else if existsb (String.eqb str) ["0"; "f"; "F"; "FALSE"; "false"; "False"]
  then (false, None)
  else (false, Some ErrSyntax).

End strconv.

(** ** Package graphql (graphql-go): the values type.go builds *)

Module graphql.

Section Types.

(** graphql.FieldResolveFn is a function value and *graphql.Object a
    handle of the library: both are opaque to type.go. *)
Context {FieldResolveFn Object : Type}.

(** graphql.Output as type.go uses it: the five scalars, a
    *graphql.Object (possibly a nil pointer inside the interface) and the
    result of graphql.NewList. *)
Inductive Output : Type :=
| String | Boolean | Int | Float | DateTime
| ObjectType (o : option Object)
| List (ofType : Output).

(** graphql.NewList on a non-nil interface value. *)
Definition NewList (ofType : Output) : Output := List ofType.

(** graphql.Field, the members type.go sets. *)
Record Field : Type := mkField {
  Name : string;
  Type_ : Output;
  Description : string;
  Resolve : option FieldResolveFn
}.

(** graphql.ObjectConfig, the members type.go sets; graphql.Fields is
    map[string]*Field. *)
Record ObjectConfig : Type := mkObjectConfig {
  ConfigName : string;
  ConfigDescription : string;
  ConfigFields : gmap string Field
}.

End Types.

Arguments Output : clear implicits.
Arguments NewList {Object} ofType.
Arguments Field : clear implicits.
Arguments ObjectConfig : clear implicits.

End graphql.

(** ** What the package takes from outside type.go *)

(** The library functions and the package constants that type.go uses
    and does not define. *)
Class Library : Type := {
  (** graphql.FieldResolveFn *)
  FieldResolveFn : Type;
  (** what a *graphql.Object points to *)
  Object : Type;
  (** graphql.NewObject *)
  NewObject : graphql.ObjectConfig FieldResolveFn Object -> Object;
  (** the methods Name and String of *graphql.Object, which agree *)
  ObjectName : Object -> string;
  (** strings.ToLower *)
  ToLower : string -> string;
  (** inflection.Singular *)
  Singular : string -> string;
  (** the filter codes, int8 constants of the package, as the integers
      they denote *)
  filterNone : Z;
  filterString : Z;
  filterBool : Z;
  filterInt : Z;
  filterFloat : Z;
  filterDate : Z
}.

(** The package errors; Go compares them by identity. *)
Inductive err : Set :=
| errorNotSimpleFieldType
| errorNotRelationshipType
| errorUnknownFieldType.

#[global] Instance err_eq_dec : EqDecision err.
Proof. solve_decision. Defined.

(** error.Error(): the text given to errors.New. *)
Definition Error (e : err) : string :=
  match e with
  | errorNotSimpleFieldType => "not a simple field type"
  | errorNotRelationshipType => "not a relationship field type"
  | errorUnknownFieldType => "unknown type"
  end.

(** The error interface: nil or one of the package errors. *)
Definition error : Set := option err.
Definition nil {A : Type} : option A := None.

(** Entity is an interface of the package, declared outside type.go;
    type.go calls its methods Instance and Description. A value of it
    is nil or an implementation, given here by what type.go sees of
    the two methods: reflect.TypeOf of the value Instance returns, and
    the string Description returns. *)
Record EntityImpl : Set := mkEntity {
  InstanceOf : reflect.TypeOf;
  DescriptionOf : string
}.

Definition Entity : Set := option EntityImpl.

(** An entity whose instance is a struct with these fields. *)
Definition structEntity (name : string) (fs : list reflect.StructField)
    (description : string) : Entity :=
  Some (mkEntity (reflect.OfStruct (reflect.mkStruct name fs)) description).

(** The fields of the struct behind an entity, when there is one. *)
Definition entityFields (entity : Entity) : option (list reflect.StructField) :=
  match entity with
  | Some impl =>
      match InstanceOf impl with
      | reflect.OfStruct t => Some (reflect.Fields t)
      | reflect.OfOther => None
      end
  | None => None
  end.

(** How a call ends: with its results, or with a run-time panic. *)
Inductive Res (A : Type) : Type :=
| Val (a : A)
| Panic.

Arguments Val {A} a.
Arguments Panic {A}.

Section Model.

Context `{Lib : Library}.

(** Resolvers is the other interface declared outside type.go; its
    methods Single and Listing map an entity to a resolver function
    (a func value, which may be nil). *)
Record ResolversImpl : Type := mkResolvers {
  SingleOf : Entity -> option FieldResolveFn;
  ListingOf : Entity -> option FieldResolveFn
}.

Definition Resolvers : Type := option ResolversImpl.

Abbreviation GOutput := (graphql.Output Object).
Abbreviation GField := (graphql.Field FieldResolveFn Object).
Abbreviation GFields := (gmap string (graphql.Field FieldResolveFn Object)).

(** type fieldDefinition struct *)
Record fieldDefinition : Type := mkFieldDefinition {
  filter : Z;
  field_ : option GField
}.

(** f.Type.PkgPath() + "." + f.Type.Name() *)
Definition fulltype (f : reflect.StructField) : string :=
  reflect.PkgPath (reflect.Typ f) +:+ "." +:+ reflect.TypeName (reflect.Typ f).

(** The [filterable] local of [field]: false unless the tag is there and
    ParseBool reads it as true. *)
Definition filterable (f : reflect.StructField) : bool :=
  let '(v, ok) := reflect.Lookup (reflect.Tag f) "filterable" in
  if ok then fst (strconv.ParseBool v) else false.

(** The [name] local of [field]: the json tag if there is one, the Go
    field name otherwise. *)
Definition fieldName (f : reflect.StructField) : string :=
  let '(v, ok) := reflect.Lookup (reflect.Tag f) "json" in
  if ok then v else reflect.Name f.

(** The third condition of the kind switch. *)
Definition isIntKind (kind : reflect.Kind) : bool :=
  bool_decide (kind = reflect.Int) || bool_decide (kind = reflect.Int8) ||
  bool_decide (kind = reflect.Int16) || bool_decide (kind = reflect.Int32) ||
  bool_decide (kind = reflect.Int64) || bool_decide (kind = reflect.Uint) ||
  bool_decide (kind = reflect.Uint8) || bool_decide (kind = reflect.Uint16) ||
  bool_decide (kind = reflect.Uint32) || bool_decide (kind = reflect.Uint64).

(** The fourth condition of the kind switch. *)
Definition isFloatKind (kind : reflect.Kind) : bool :=
  bool_decide (kind = reflect.Float32) || bool_decide (kind = reflect.Float64).

(** func field(f reflect.StructField) (fieldDefinition, error) *)
Definition field (f : reflect.StructField) : fieldDefinition * error :=
  let kind := reflect.Kind_ (reflect.Typ f) in
  let ftype := mkFieldDefinition 0 nil in
  let withFilter (code : Z) :=
    if filterable f then mkFieldDefinition code (field_ ftype) else ftype in
  let switch : err + (GOutput * fieldDefinition) :=
    if bool_decide (kind = reflect.String) then
      inr (graphql.String, withFilter filterString)
    else if bool_decide (kind = reflect.Bool) then
      inr (graphql.Boolean, withFilter filterBool)
    else if isIntKind kind then
      inr (graphql.Int, withFilter filterInt)
    else if isFloatKind kind then
      inr (graphql.Float, withFilter filterFloat)
    else if bool_decide (fulltype f = "time.Time") then
      inr (graphql.DateTime, withFilter filterDate)
    else if bool_decide (kind = reflect.Struct) || bool_decide (kind = reflect.Slice) then
      inl errorNotSimpleFieldType
    else
      inl errorNotRelationshipType in
  match switch with
  | inl e => (ftype, Some e)
  | inr (t, ftype) =>
      let name := fieldName f in
      (mkFieldDefinition (filter ftype)
         (Some (graphql.mkField (ToLower name) t "" nil)),
       nil)
  end.

(** *** The store and the monad of the calls *)

(** The two maps a caller hands to [RelationshipType]. They are
    reference values: a callee that wrote to them would change them for
    the caller. *)
Record Store : Type := mkStore {
  entitiesMap : gmap string Entity;
  entitiesObjects : gmap string (option Object)
}.

(** A call: from the store before to the store after and the outcome. *)
Definition go (A : Type) : Type := Store -> Store * Res A.

#[global] Instance go_ret : MRet go := fun A a s => (s, Val a).

#[global] Instance go_bind : MBind go := fun A B k m s =>
  match m s with
  | (s', Val a) => k a s'
  | (s', Panic) => (s', Panic)
  end.

Definition panic {A : Type} : go A := fun s => (s, Panic).

(** A call that leaves the store as it found it. *)
Definition readonly {A : Type} (m : go A) : Prop := forall s, fst (m s) = s.

(** [v, ok := entitiesMap[name]] *)
Definition readEntity (name : string) : go (Entity * bool) := fun s =>
  (s, Val (match entitiesMap s !! name with
           | Some e => (e, true)
           | None => (nil, false)
           end)).

(** [v, ok := entitiesObjects[name]] *)
Definition readObject (name : string) : go (option Object * bool) := fun s =>
  (s, Val (match entitiesObjects s !! name with
           | Some o => (o, true)
           | None => (nil, false)
           end)).

(** A method call on an interface value panics on nil. *)
Definition Instance (entity : Entity) : go reflect.TypeOf :=
  match entity with
  | Some impl => mret (InstanceOf impl)
  | None => panic
  end.

Definition Description (entity : Entity) : go string :=
  match entity with
  | Some impl => mret (DescriptionOf impl)
  | None => panic
  end.

Definition Single (resolvers : Resolvers) (entity : Entity) : go (option FieldResolveFn) :=
  match resolvers with
  | Some impl => mret (SingleOf impl entity)
  | None => panic
  end.

Definition Listing (resolvers : Resolvers) (entity : Entity) : go (option FieldResolveFn) :=
  match resolvers with
  | Some impl => mret (ListingOf impl entity)
  | None => panic
  end.

(** [typeof.NumField()] and [typeof.Field(i)]: the fields of a struct
    type; a panic on any other type. *)
Definition structFields (typeof : reflect.TypeOf) : go (list reflect.StructField) :=
  match typeof with
  | reflect.OfStruct t => mret (reflect.Fields t)
  | reflect.OfOther => panic
  end.

(** [typeof.Name()] *)
Definition typeName (typeof : reflect.TypeOf) : string :=
  match typeof with
  | reflect.OfStruct t => reflect.StructName t
  | reflect.OfOther => ""
  end.

(** What the verb %v prints for a graphql type: its String method, and
    <nil> for a nil pointer. *)
Fixpoint OutputString (t : GOutput) : string :=
  match t with
  | graphql.String => "String"
  | graphql.Boolean => "Boolean"
  | graphql.Int => "Int"
  | graphql.Float => "Float"
  | graphql.DateTime => "DateTime"
  | graphql.ObjectType (Some o) => ObjectName o
  | graphql.ObjectType None => "<nil>"
  | graphql.List ofType => "[" +:+ OutputString ofType +:+ "]"
  end.

(** [typeInfo.Name()]: the Name method reads a member of the object, so
    it panics on a nil *graphql.Object; the name of a list is its
    element printed with %v. *)
Definition OutputName (typeInfo : GOutput) : go string :=
  match typeInfo with
  | graphql.ObjectType (Some o) => mret (ObjectName o)
  | graphql.ObjectType None => panic
  | graphql.List ofType => mret (OutputString ofType)
  | scalar => mret (OutputString scalar)
  end.

(** *** FieldType *)

(** The loop of [FieldType] over the fields still to visit, with the
    two maps it fills. It ends with the error it returns early, or with
    the maps. *)
Fixpoint FieldType_loop (fs : list reflect.StructField)
    (fields : GFields) (filters : gmap string Z) : err + (GFields * gmap string Z) :=
  match fs with
  | [] => inr (fields, filters)
  | f :: rest =>
      let '(def, e) := field f in
      if decide (e = Some errorNotSimpleFieldType) then
        FieldType_loop rest fields filters
      else
        match e with
        | Some e' => inl e'
        | None =>
            match field_ def with
            | Some fld =>
                if decide (graphql.Name fld <> "") then
                  let fields := <[graphql.Name fld := fld]> fields in
                  let filters :=
                    if decide (filter def <> filterNone)
                    then <[graphql.Name fld := filter def]> filters
                    else filters in
                  FieldType_loop rest fields filters
                else FieldType_loop rest fields filters
            | None => FieldType_loop rest fields filters
            end
        end
  end.

(** func FieldType(entity Entity): the object, the filters and the error *)
Definition FieldType (entity : Entity)
    : go (option Object * option (gmap string Z) * error) :=
  instance ← Instance entity;
  let typeof := instance in
  fs ← structFields typeof;
  match FieldType_loop fs ∅ ∅ with
  | inl e => mret (nil, nil, Some e)
  | inr (fields, filters) =>
      let name := ToLower (typeName typeof) in
      description ← Description entity;
      mret (Some (NewObject (graphql.mkObjectConfig name description fields)),
            Some filters, nil)
  end.

(** *** relationship and RelationshipType *)

(** The first if-chain of [relationship]: an early return with an error,
    or the name to look up. *)
Definition relationshipName (f : reflect.StructField) : go (err + string) :=
  let kind := reflect.Kind_ (reflect.Typ f) in
  let name := ToLower (reflect.Name f) in
  if bool_decide (kind = reflect.Slice) then
    mret (inr (ToLower (Singular name)))
  else if bool_decide (fulltype f = "time.Time")
          || (bool_decide (kind <> reflect.Struct) && bool_decide (kind <> reflect.Slice)) then
    mret (inl errorNotRelationshipType)
  else
    '(_, ok) ← readEntity name;
    if negb ok then mret (inl errorUnknownFieldType)
    else
      '(_, ok) ← readObject name;
      if negb ok then mret (inl errorUnknownFieldType)
      else mret (inr name).

(** func relationship(entitiesMap, entitiesObjects, f, resolvers): the
    field and the error; the two maps are the ones of the store *)
Definition relationship (f : reflect.StructField) (resolvers : Resolvers)
    : go (option GField * error) :=
  let kind := reflect.Kind_ (reflect.Typ f) in
  chain ← relationshipName f;
  match chain with
  | inl e => mret (nil, Some e)
  | inr name =>
      '(entity, _) ← readEntity name;
      if bool_decide (kind = reflect.Struct) then
        '(object, _) ← readObject name;
        let typeInfo := graphql.ObjectType object in
        typeName ← OutputName typeInfo;
        entityDescription ← Description entity;
        let description :=
          "Get a single " +:+ typeName +:+ " (" +:+ entityDescription +:+ ") by id or slug" in
        resolver ← Single resolvers entity;
        mret (Some (graphql.mkField name typeInfo description resolver), nil)
      else if bool_decide (kind = reflect.Slice) then
        '(object, _) ← readObject name;
        let typeInfo := graphql.NewList (graphql.ObjectType object) in
        typeName ← OutputName typeInfo;
        entityDescription ← Description entity;
        let description :=
          "Get a list of " +:+ typeName +:+ " (" +:+ entityDescription +:+ ") according to filters" in
        resolver ← Listing resolvers entity;
        mret (Some (graphql.mkField name typeInfo description resolver), nil)
      else
        mret (nil, Some errorNotRelationshipType)
  end.

(** The loop of [RelationshipType] over the fields still to visit, with
    the map it fills. *)
Fixpoint RelationshipType_loop (fs : list reflect.StructField)
    (resolvers : Resolvers) (fields : GFields) : go (GFields * error) :=
  match fs with
  | [] => mret (fields, nil)
  | f :: rest =>
      '(fld, e) ← relationship f resolvers;
      if decide (e = Some errorNotRelationshipType) then
        RelationshipType_loop rest resolvers fields
      else
        match e with
        | Some e' => mret (fields, Some e')
        | None =>
            match fld with
            | Some fld =>
                RelationshipType_loop rest resolvers (<[graphql.Name fld := fld]> fields)
            | None => panic
            end
        end
  end.

(** func RelationshipType(entitiesMap, entitiesObjects, entity, resolvers):
    the fields and the error; the two maps are the ones of the store *)
Definition RelationshipType (entity : Entity) (resolvers : Resolvers)
    : go (GFields * error) :=
  instance ← Instance entity;
  fs ← structFields instance;
  RelationshipType_loop fs resolvers ∅.

(** *** The tables of the specification *)

(** The GraphQL scalar the specification assigns to a Go scalar kind. *)
Definition scalarOfKind (kind : reflect.Kind) : option GOutput :=
  match kind with
  | reflect.String => Some graphql.String
  | reflect.Bool => Some graphql.Boolean
  | reflect.Int | reflect.Int8 | reflect.Int16 | reflect.Int32 | reflect.Int64
  | reflect.Uint | reflect.Uint8 | reflect.Uint16 | reflect.Uint32 | reflect.Uint64 =>
      Some graphql.Int
  | reflect.Float32 | reflect.Float64 => Some graphql.Float
  | _ => None
  end.

(** The filter code the specification matches with a scalar
    classification; no code for a type that is not a scalar. *)
Definition filterCodeOf (t : GOutput) : Z :=
  match t with
  | graphql.String => filterString
  | graphql.Boolean => filterBool
  | graphql.Int => filterInt
  | graphql.Float => filterFloat
  | graphql.DateTime => filterDate
  | _ => filterNone
  end.

(** The field that [field] builds for a scalar of GraphQL type [t]. *)
Definition scalarDefinition (f : reflect.StructField) (t : GOutput) : fieldDefinition :=
  mkFieldDefinition (if filterable f then filterCodeOf t else 0)
    (Some (graphql.mkField (ToLower (fieldName f)) t "" nil)).

(** The GraphQL field of a struct field that [field] accepts. *)
Definition scalarField (f : reflect.StructField) : option GField :=
  match field f with
  | (def, None) => field_ def
  | (_, Some _) => None
  end.

(** The output names of the scalar fields of a struct, in field order. *)
Definition scalarNames (fs : list reflect.StructField) : list string :=
  omap (fun f => graphql.Name <$> scalarField f) fs.

(** What [FieldType] relies on in the filter codes, which the package
    declares outside type.go: [filterNone] is the zero value of int8, the
    value of an unset [filter] member, and no scalar classification has
    that code. *)
Definition filterCodes_ok : Prop :=
  filterNone = 0 /\ filterString <> 0 /\ filterBool <> 0 /\ filterInt <> 0 /\
  filterFloat <> 0 /\ filterDate <> 0.

(** *** What one field leaves under a name *)

(** The entry a scalar field writes under the name [n] of the fields
    map of [FieldType]: its definition, when [n] is its output name and
    is not empty. *)
Definition fieldEntry (n : string) (f : reflect.StructField) : option GField :=
  match scalarField f with
  | Some fld => if bool_decide (graphql.Name fld = n /\ n <> "") then Some fld else None
  | None => None
  end.

(** The entry a scalar field writes under the name [n] of the filters
    map of [FieldType]: its filter code, when [n] is its output name, is
    not empty, and the code is not [filterNone]. *)
Definition filterEntry (n : string) (f : reflect.StructField) : option Z :=
  match scalarField f with
  | Some fld =>
      if bool_decide (graphql.Name fld = n /\ n <> "" /\
                      filter (fst (field f)) <> filterNone)
      then Some (filter (fst (field f))) else None
  | None => None
  end.

(** The entry a field writes under the name [n] of the fields map of
    [RelationshipType]: the field [relationship] builds for it in the
    store [s], when [n] is the name of that field. *)
Definition relationshipEntry (resolvers : Resolvers) (s : Store) (n : string)
    (f : reflect.StructField) : option GField :=
  match snd (relationship f resolvers s) with
  | Val (Some fld, None) => if bool_decide (graphql.Name fld = n) then Some fld else None
  | _ => None
  end.

End Model.

(** ** A concrete library and sample structs, for the examples *)

Module Demo.

(** An object as the examples see it: its name, its description and the
    names of its fields. *)
Record object : Set := mkObject {
  PrivateName : string;
  PrivateDescription : string;
  fieldNames : list string
}.

(** strings.ToLower on the ASCII letters. *)
Definition lowerAscii (c : ascii) : ascii :=
  let n := nat_of_ascii c in
  if (Nat.leb 65 n && Nat.leb n 90)%bool then ascii_of_nat (n + 32) else c.

Fixpoint lower (s : string) : string :=
  match s with
  | EmptyString => EmptyString
  | String.String c rest => String.String (lowerAscii c) (lower rest)
  end.

(** A stand-in for inflection.Singular: it drops one final s. *)
Fixpoint singular (s : string) : string :=
  match s with
  | EmptyString => EmptyString
  | String.String c rest =>
      match rest with
      | EmptyString => if Ascii.eqb c "s" then EmptyString else s
      | _ => String.String c (singular rest)
      end
  end.

(** Resolver functions are named by a string; filter codes count from
    [filterNone = 0]. *)
Definition lib : Library := {|
  FieldResolveFn := string;
  Object := object;
  NewObject := fun config =>
    mkObject (graphql.ConfigName config) (graphql.ConfigDescription config)
      (fst <$> map_to_list (graphql.ConfigFields config));
  ObjectName := PrivateName;
  ToLower := lower;
  Singular := singular;
  filterNone := 0;
  filterString := 1;
  filterBool := 2;
  filterInt := 3;
  filterFloat := 4;
  filterDate := 5
|}.

Definition stringType := reflect.mkType reflect.String "" "string".
Definition intType := reflect.mkType reflect.Int "" "int".
Definition timeType := reflect.mkType reflect.Struct "time" "Time".
Definition userType := reflect.mkType reflect.Struct "models" "User".
Definition tagsType := reflect.mkType reflect.Slice "" "".
Definition metaType := reflect.mkType reflect.Map "" "".

(** Title string `json:"title" filterable:"true"` *)
Definition title :=
  reflect.mkField "Title" stringType [("json", "title"); ("filterable", "true")].
(** Views int *)
Definition views := reflect.mkField "Views" intType [].
(** Created time.Time `filterable:"1"` *)
Definition created := reflect.mkField "Created" timeType [("filterable", "1")].
(** User User *)
Definition user := reflect.mkField "User" userType [].
(** Tags []Tag *)
Definition tags := reflect.mkField "Tags" tagsType [].
(** Meta map[string]string *)
Definition meta := reflect.mkField "Meta" metaType [].
(** Slug string, with an empty json name and filterable:"true" *)
Definition slug :=
  reflect.mkField "Slug" stringType [("json", ""); ("filterable", "true")].

Definition entityOf (name : string) (fs : list reflect.StructField) : Entity :=
  structEntity name fs ("a " +:+ name).

Definition post : Entity := entityOf "Post" [title; views; created; user; tags].
Definition userEntity : Entity := entityOf "User" [title].
Definition tagEntity : Entity := entityOf "Tag" [title].
Definition draft : Entity := entityOf "Draft" [slug].

Definition userObject : object := mkObject "user" "a User" ["title"].
Definition tagObject : object := mkObject "tag" "a Tag" ["title"].

Definition resolvers : Resolvers (Lib := lib) :=
  Some (mkResolvers (Lib := lib)
          (fun _ => Some "single") (fun _ => Some "listing")).

Definition emptyStore : Store (Lib := lib) := mkStore (Lib := lib) ∅ ∅.

Definition store : Store (Lib := lib) :=
  mkStore (Lib := lib)
    (<["user" := userEntity]> (<["tag" := tagEntity]> ∅))
    (<["user" := Some userObject]> (<["tag" := Some tagObject]> ∅)).


Definition document : Entity := entityOf "Document" [title; meta; views].

(** Name string `filterable:"true"` next to an unexported name int: the
    two output names are the same. *)
Definition exportedName :=
  reflect.mkField "Name" stringType [("filterable", "true")].
Definition unexportedName := reflect.mkField "name" intType [].
Definition account : Entity := entityOf "Account" [exportedName; unexportedName].

Definition postObject : object :=
  mkObject "post" "a Post" ["created"; "views"; "title"].

Definition postFilters : gmap string Z := <["title" := 1]> (<["created" := 5]> ∅).

Definition titleField : graphql.Field string object :=
  graphql.mkField "title" graphql.String "" None.

Definition userField : graphql.Field string object :=
  graphql.mkField "user" (graphql.ObjectType (Some userObject))
    "Get a single user (a User) by id or slug" (Some "single").

Definition tagsField : graphql.Field string object :=
  graphql.mkField "tag" (graphql.NewList (graphql.ObjectType (Some tagObject)))
    "Get a list of tag (a Tag) according to filters" (Some "listing").

(** Author User: a struct field whose name no caller registered. *)
Definition author := reflect.mkField "Author" userType [].

(** The relationship fields of Post in [store]. *)
Definition postRelationships : gmap string (graphql.Field string object) :=
  <["user" := userField]> (<["tag" := tagsField]> ∅).

End Demo.

(** * Properties *)

Section Proofs.

Context `{Lib : Library}.

Implicit Types (f : reflect.StructField) (s : Store) (entity : Entity)
  (resolvers : Resolvers).

(** ** The scalar classifier *)

(** The outcomes of [field]: a scalar definition, or one of two errors
    next to the zero definition. *)
Lemma field_outcomes f :
  (exists t, field f = (scalarDefinition f t, nil) /\
     (scalarOfKind (reflect.Kind_ (reflect.Typ f)) = Some t \/
      scalarOfKind (reflect.Kind_ (reflect.Typ f)) = None /\
      fulltype f = "time.Time" /\ t = graphql.DateTime)) \/
  (field f = (mkFieldDefinition 0 nil, Some errorNotSimpleFieldType) /\
     fulltype f <> "time.Time" /\
     (reflect.Kind_ (reflect.Typ f) = reflect.Struct \/
      reflect.Kind_ (reflect.Typ f) = reflect.Slice)) \/
  (field f = (mkFieldDefinition 0 nil, Some errorNotRelationshipType) /\
     scalarOfKind (reflect.Kind_ (reflect.Typ f)) = None /\
     fulltype f <> "time.Time" /\
     reflect.Kind_ (reflect.Typ f) <> reflect.Struct /\
     reflect.Kind_ (reflect.Typ f) <> reflect.Slice).
Proof.
  unfold field, scalarDefinition, isIntKind, isFloatKind.
  destruct f as [fname [kind pkg tname] tag]; simpl.
  destruct (decide (fulltype (reflect.mkField fname (reflect.mkType kind pkg tname) tag)
                    = "time.Time")) as [Ht|Ht];
    destruct kind; simpl; repeat case_bool_decide; try done;
    destruct (filterable _); simpl; eauto 10;
    left;
    first [ exists graphql.String; split; [reflexivity | by eauto]
          | exists graphql.Boolean; split; [reflexivity | by eauto]
          | exists graphql.Int; split; [reflexivity | by eauto]
          | exists graphql.Float; split; [reflexivity | by eauto]
          | exists graphql.DateTime; split; [reflexivity | by eauto] ].
Qed.

(** C1. For a field of a Go scalar kind, [field] succeeds with the
    GraphQL scalar of the table: String for the String kind, Boolean for
    Bool, Int for the ten signed and unsigned integer kinds, Float for
    Float32 and Float64. *)
Theorem field_scalar_kind f (t : graphql.Output Object) :
  scalarOfKind (reflect.Kind_ (reflect.Typ f)) = Some t ->
  field f = (scalarDefinition f t, nil) /\
  graphql.Type_ <$> field_ (fst (field f)) = Some t.
Proof.
  intros Hk.
  assert (field f = (scalarDefinition f t, nil)) as ->; [|done].
  destruct (field_outcomes f) as [(t' & -> & [Ht'|(Ht' & _)])|[(_ & _ & [K|K])|(_ & Ht' & _)]];
    try congruence; rewrite K in Hk; done.
Qed.


(** ** FieldType *)

(** [FieldType] on each kind of entity value. *)
Lemma FieldType_eq entity s :
  FieldType entity s =
  match entity with
  | Some (mkEntity (reflect.OfStruct t) description) =>
      (s, Val match FieldType_loop (reflect.Fields t) ∅ ∅ with
              | inl e => (nil, nil, Some e)
              | inr (fields, filters) =>
                  (Some (NewObject (graphql.mkObjectConfig
                           (ToLower (reflect.StructName t)) description fields)),
                   Some filters, nil)
              end)
  | _ => (s, Panic)
  end.
Proof.
  destruct entity as [[[t|] d]|]; try done.
  unfold FieldType, mbind, go_bind; simpl.
  by destruct (FieldType_loop _ _ _) as [e|[fields filters]].
Qed.

(** The loop over a concatenation runs the second part from where the
    first part ends. *)
Lemma FieldType_loop_app (pre post : list reflect.StructField)
    (fields : gmap string (graphql.Field FieldResolveFn Object))
    (filters : gmap string Z) :
  FieldType_loop (pre ++ post) fields filters =
  match FieldType_loop pre fields filters with
  | inl e => inl e
  | inr (fields', filters') => FieldType_loop post fields' filters'
  end.
Proof.
  revert fields filters. induction pre as [|f pre IH]; intros; [done|].
  simpl. destruct (field f) as [def e].
  case_decide; [done|]. destruct e; [done|].
  destruct (field_ def); [|done]. by case_decide.
Qed.

(** A field that [field] rejects as not simple leaves the loop as it
    found it. *)
Lemma FieldType_loop_skip f (rest : list reflect.StructField)
    (fields : gmap string (graphql.Field FieldResolveFn Object))
    (filters : gmap string Z) :
  snd (field f) = Some errorNotSimpleFieldType ->
  FieldType_loop (f :: rest) fields filters = FieldType_loop rest fields filters.
Proof.
  simpl. destruct (field f) as [def e]; simpl; intros ->. by case_decide.
Qed.

(** A field that [field] rejects with the other error ends the loop
    with that error, wherever it stands. *)
Lemma FieldType_loop_abort f (fs : list reflect.StructField)
    (fields : gmap string (graphql.Field FieldResolveFn Object))
    (filters : gmap string Z) :
  f ∈ fs ->
  snd (field f) = Some errorNotRelationshipType ->
  FieldType_loop fs fields filters = inl errorNotRelationshipType.
Proof.
  intros Hin Hf. revert fields filters.
  induction fs as [|f0 fs IH]; intros; [by apply elem_of_nil in Hin|].
  simpl.
  destruct (field_outcomes f0) as [(t & Ht & _)|[(He & _)|(He & _)]].
  - assert (f ∈ fs) as Hin'.
    { apply elem_of_cons in Hin as [->|]; [|done]. by rewrite Ht in Hf. }
    rewrite Ht. case_decide; [done|]. simpl. by case_decide; apply IH.
  - assert (f ∈ fs) as Hin'.
    { apply elem_of_cons in Hin as [->|]; [|done]. by rewrite He in Hf. }
    rewrite He. case_decide; [|done]. by apply IH.
  - rewrite He. by case_decide.
Qed.

(** C10. A field that is neither of a scalar kind, nor time.Time, nor of
    kind Struct or Slice gets from [field] the error whose text is
    "not a relationship field type", and [FieldType] on a struct with
    such a field returns that error with a nil object and nil filters. *)
Theorem field_unsupported_kind f :
  scalarOfKind (reflect.Kind_ (reflect.Typ f)) = None ->
  fulltype f <> "time.Time" ->
  reflect.Kind_ (reflect.Typ f) <> reflect.Struct ->
  reflect.Kind_ (reflect.Typ f) <> reflect.Slice ->
  field f = (mkFieldDefinition 0 nil, Some errorNotRelationshipType) /\
  Error errorNotRelationshipType = "not a relationship field type" /\
  forall entity fs s,
    entityFields entity = Some fs -> f ∈ fs ->
    FieldType entity s = (s, Val (nil, nil, Some errorNotRelationshipType)).
Proof.
  intros Hk Ht Hs Hl.
  assert (field f = (mkFieldDefinition 0 nil, Some errorNotRelationshipType)) as Hf.
  { destruct (field_outcomes f) as [(t & _ & [Hk'|(_ & Ht' & _)])|[(_ & _ & [K|K])|(He & _)]];
      congruence. }
  split; [done|]. split; [done|].
  intros entity fs s Hfs Hin. rewrite FieldType_eq.
  destruct entity as [[[t|] d]|]; try done. injection Hfs as ->.
  by rewrite (FieldType_loop_abort f) by (by rewrite ?Hf).
Qed.

(** What [field] accepts is a scalar definition of one of the five
    scalar types. *)
Lemma scalarField_inv f (fld : graphql.Field FieldResolveFn Object) :
  scalarField f = Some fld ->
  exists t, field f = (scalarDefinition f t, nil) /\
    fld = graphql.mkField (ToLower (fieldName f)) t "" nil /\
    (t = graphql.String \/ t = graphql.Boolean \/ t = graphql.Int \/
     t = graphql.Float \/ t = graphql.DateTime).
Proof.
  unfold scalarField. intros Hs.
  destruct (field_outcomes f) as [(t & Ht & Hk)|[(He & _)|(He & _)]];
    rewrite ?He, ?Ht in Hs; try done.
  simpl in Hs. injection Hs as <-. exists t. split; [done|]. split; [done|].
  destruct Hk as [Hk|(_ & _ & ->)]; [|by eauto 6].
  destruct (reflect.Kind_ _); simpl in Hk; try done; injection Hk as <-; eauto 6.
Qed.

(** One round of the loop on a field that [field] accepts. *)
Lemma FieldType_loop_scalar f (fld : graphql.Field FieldResolveFn Object)
    (rest : list reflect.StructField)
    (fields : gmap string (graphql.Field FieldResolveFn Object))
    (filters : gmap string Z) :
  scalarField f = Some fld ->
  FieldType_loop (f :: rest) fields filters =
  if decide (graphql.Name fld <> "") then
    FieldType_loop rest (<[graphql.Name fld := fld]> fields)
      (if decide (filter (fst (field f)) <> filterNone)
       then <[graphql.Name fld := filter (fst (field f))]> filters
       else filters)
  else FieldType_loop rest fields filters.
Proof.
  unfold scalarField. simpl. destruct (field f) as [def [e|]]; [done|].
  simpl. intros ->. by case_decide.
Qed.

(** The rounds of a loop that ends without error: each field is
    skipped or accepted. *)
Lemma FieldType_loop_head f (rest : list reflect.StructField)
    (fields : gmap string (graphql.Field FieldResolveFn Object))
    (filters : gmap string Z) R :
  FieldType_loop (f :: rest) fields filters = inr R ->
  (scalarField f = None /\ FieldType_loop rest fields filters = inr R) \/
  (exists fld, scalarField f = Some fld).
Proof.
  intros HR.
  destruct (field_outcomes f) as [(t & Ht & _)|[(He & _)|(He & _)]].
  - right. unfold scalarField. rewrite Ht. simpl. eauto.
  - left. rewrite FieldType_loop_skip in HR by (by rewrite He).
    unfold scalarField. by rewrite He.
  - rewrite (FieldType_loop_abort f) in HR; [done|by left|by rewrite He].
Qed.

(** Every entry of the fields map a loop ends with was there at the
    start or is the definition of a scalar field of the struct, under
    its name. *)
Lemma FieldType_loop_fields (fs : list reflect.StructField)
    (fields fields' : gmap string (graphql.Field FieldResolveFn Object))
    (filters filters' : gmap string Z) :
  FieldType_loop fs fields filters = inr (fields', filters') ->
  forall n fld, fields' !! n = Some fld ->
    fields !! n = Some fld \/
    exists f, f ∈ fs /\ scalarField f = Some fld /\ graphql.Name fld = n.
Proof.
  revert fields filters.
  induction fs as [|f fs IH]; intros fields filters HR n fld Hn.
  { injection HR as -> ->. by left. }
  destruct (FieldType_loop_head _ _ _ _ _ HR) as [(_ & HR')|(fld0 & Hs)].
  - destruct (IH _ _ HR' n fld Hn) as [|(f' & ? & ?)]; [by left|].
    right. exists f'. split; [by right|done].
  - rewrite (FieldType_loop_scalar _ _ _ _ _ Hs) in HR.
    case_decide as Hname.
    + destruct (IH _ _ HR n fld Hn) as [Hin|(f' & ? & ?)].
      * rewrite lookup_insert in Hin. case_decide as Heq.
        -- injection Hin as <-. right. exists f. split; [by left|done].
        -- by left.
      * right. exists f'. split; [by right|done].
    + destruct (IH _ _ HR n fld Hn) as [|(f' & ? & ?)]; [by left|].
      right. exists f'. split; [by right|done].
Qed.

(** C4, amended. A field of kind Struct or Slice whose full type is not
    time.Time gets the not-a-simple-field-type error from [field];
    [FieldType] skips it, so the result is the one for the struct
    without that field; and every field of the object [FieldType]
    returns is the scalar definition of a field that [field] accepts. *)
Theorem field_struct_slice_not_simple f :
  reflect.Kind_ (reflect.Typ f) = reflect.Struct \/
  reflect.Kind_ (reflect.Typ f) = reflect.Slice ->
  fulltype f <> "time.Time" ->
  field f = (mkFieldDefinition 0 nil, Some errorNotSimpleFieldType) /\
  (forall name description pre post s,
     FieldType (structEntity name (pre ++ f :: post) description) s =
     FieldType (structEntity name (pre ++ post) description) s) /\
  (forall entity fs s s' object filters e,
     entityFields entity = Some fs ->
     FieldType entity s = (s', Val (Some object, filters, e)) ->
     exists config, object = NewObject config /\
       forall n fld, graphql.ConfigFields config !! n = Some fld ->
         exists f', f' ∈ fs /\ f' <> f /\ scalarField f' = Some fld /\
           graphql.Name fld = n).
Proof.
  intros Hk Ht.
  assert (field f = (mkFieldDefinition 0 nil, Some errorNotSimpleFieldType)) as Hf.
  { destruct (field_outcomes f)
      as [(t & _ & [Hk'|(_ & Ht' & _)])|[(He & _)|(_ & _ & _ & Hs & Hl)]];
      [|done|done|by destruct Hk].
    by destruct Hk as [K|K]; rewrite K in Hk'. }
  split; [done|]. split.
  - intros. rewrite !FieldType_eq. unfold structEntity. simpl.
    rewrite !FieldType_loop_app.
    destruct (FieldType_loop pre ∅ ∅) as [|[fields filters]]; [done|].
    by rewrite FieldType_loop_skip by (by rewrite Hf).
  - intros entity fs s s' object filters e Hfs HR. rewrite FieldType_eq in HR.
    destruct entity as [[[t|] d]|]; try done. injection Hfs as <-.
    destruct (FieldType_loop _ _ _) as [|[fields filters0]] eqn:Hloop; [done|].
    injection HR as _ <- _ _. eexists. split; [done|]. simpl.
    intros n fld Hn.
    destruct (FieldType_loop_fields _ _ _ _ _ Hloop n fld Hn)
      as [Hempty|(f' & Hin & Hs & Hname)]; [by rewrite lookup_empty in Hempty|].
    exists f'. repeat split; try done.
    intros ->. unfold scalarField in Hs. by rewrite Hf in Hs.
Qed.

(** The filters map of a loop: every entry was there at the start or
    is the code of a filterable scalar field of that name; entries stay;
    and every filterable scalar field with a name has an entry. *)
Lemma FieldType_loop_filters (fs : list reflect.StructField)
    (fields fields' : gmap string (graphql.Field FieldResolveFn Object))
    (filters filters' : gmap string Z) :
  filterCodes_ok ->
  FieldType_loop fs fields filters = inr (fields', filters') ->
  (forall n c, filters' !! n = Some c ->
     filters !! n = Some c \/
     n <> "" /\ exists f fld, f ∈ fs /\ scalarField f = Some fld /\
       graphql.Name fld = n /\ filterable f = true /\
       c = filterCodeOf (graphql.Type_ fld)) /\
  (forall n, is_Some (filters !! n) -> is_Some (filters' !! n)) /\
  (forall f fld, f ∈ fs -> scalarField f = Some fld ->
     graphql.Name fld <> "" -> filterable f = true ->
     is_Some (filters' !! graphql.Name fld)).
Proof.
  intros (Hnone & Hcodes). revert fields filters.
  induction fs as [|f fs IH]; intros fields filters HR.
  { injection HR as -> ->. split; [by left|]. split; [done|].
    intros f fld Hin. by apply elem_of_nil in Hin. }
  destruct (FieldType_loop_head _ _ _ _ _ HR) as [(Hno & HR')|(fld0 & Hs)].
  { destruct (IH _ _ HR') as (Hsound & Hmono & Hcompl). split; [|split; [done|]].
    - intros n c Hn. destruct (Hsound n c Hn) as [|(? & f' & fld & ? & ?)]; [by left|].
      right. split; [done|]. exists f', fld. split; [by right|done].
    - intros f' fld Hin Hs'. apply elem_of_cons in Hin as [->|Hin]; [congruence|].
      by apply (Hcompl f'). }
  rewrite (FieldType_loop_scalar _ _ _ _ _ Hs) in HR.
  destruct (scalarField_inv _ _ Hs) as (t & Hf & Hfld & Ht).
  assert (filter (fst (field f)) = if filterable f then filterCodeOf t else 0) as Hcode
    by (by rewrite Hf).
  assert (filterCodeOf t <> filterNone) as Hcode_ne.
  { rewrite Hnone. destruct Hcodes as (? & ? & ? & ? & ?).
    by destruct Ht as [->|[->|[->|[->| ->]]]]. }
  assert (graphql.Type_ fld0 = t) as Htype by (by rewrite Hfld).
  case_decide as Hname.
  - destruct (IH _ _ HR) as (Hsound & Hmono & Hcompl). split; [|split].
    + intros n c Hn.
      destruct (Hsound n c Hn) as [Hin|(? & f' & fld & ? & ?)].
      * case_decide as Hins; [|by left].
        rewrite lookup_insert in Hin. case_decide as Heq; [|by left].
        injection Hin as <-. right. split; [congruence|].
        exists f, fld0. split; [by left|]. split; [done|]. split; [done|].
        rewrite Hcode in Hins |- *. rewrite Htype.
        by destruct (filterable f).
      * right. split; [done|]. exists f', fld. split; [by right|done].
    + intros n Hn. apply Hmono. case_decide; [|done].
      rewrite lookup_insert. by case_decide.
    + intros f' fld Hin Hs' Hname' Hfilt.
      apply elem_of_cons in Hin as [->|Hin]; [|by apply (Hcompl f')].
      assert (fld = fld0) as -> by congruence.
      apply Hmono. rewrite Hcode, Hfilt. rewrite decide_True by done.
      by rewrite lookup_insert_eq.
  - destruct (IH _ _ HR) as (Hsound & Hmono & Hcompl). split; [|split; [done|]].
    + intros n c Hn. destruct (Hsound n c Hn) as [|(? & f' & fld & ? & ?)]; [by left|].
      right. split; [done|]. exists f', fld. split; [by right|done].
    + intros f' fld Hin Hs' Hname'.
      apply elem_of_cons in Hin as [->|Hin]; [|by apply (Hcompl f')].
      assert (fld = fld0) as -> by congruence. done.
Qed.

(** In a struct whose scalar fields have distinct output names, a name
    belongs to one field. *)
Lemma scalarNames_inj (fs : list reflect.StructField) f1 f2
    (fld1 fld2 : graphql.Field FieldResolveFn Object) :
  NoDup (scalarNames fs) ->
  f1 ∈ fs -> f2 ∈ fs ->
  scalarField f1 = Some fld1 -> scalarField f2 = Some fld2 ->
  graphql.Name fld1 = graphql.Name fld2 ->
  f1 = f2.
Proof.
  unfold scalarNames. intros Hnd Hin1 Hin2 Hs1 Hs2 Hname.
  induction fs as [|f fs IH]; [by apply elem_of_nil in Hin1|].
  assert (forall g fld, g ∈ fs -> scalarField g = Some fld ->
            graphql.Name fld ∈ omap (fun f => graphql.Name <$> scalarField f) fs)
    as Hmem.
  { intros g fld Hg Hsg. apply list_elem_of_omap. exists g. by rewrite Hsg. }
  simpl in Hnd.
  apply elem_of_cons in Hin1 as [->|Hin1]; apply elem_of_cons in Hin2 as [->|Hin2];
    [done|..].
  - rewrite Hs1 in Hnd. simpl in Hnd. apply NoDup_cons in Hnd as [Hnotin _].
    destruct Hnotin. rewrite Hname. by eapply Hmem.
  - rewrite Hs2 in Hnd. simpl in Hnd. apply NoDup_cons in Hnd as [Hnotin _].
    destruct Hnotin. rewrite <- Hname. by eapply Hmem.
  - apply IH; [|done..]. destruct (scalarField f); simpl in Hnd; [|done].
    by apply NoDup_cons in Hnd as [_ ?].
Qed.

(** C3, amended. When [FieldType] succeeds, the keys of its filters map
    are exactly the non-empty output names of the scalar fields whose
    filterable tag parses as true; and when no two scalar fields share
    an output name, the map gives each named scalar field the filter
    code matching its classification if it is filterable, and no entry
    if it is not. *)
Theorem FieldType_filters entity (fs : list reflect.StructField) s s'
    (object : option Object) (filters : gmap string Z) :
  filterCodes_ok ->
  entityFields entity = Some fs ->
  FieldType entity s = (s', Val (object, Some filters, nil)) ->
  (forall n, is_Some (filters !! n) <->
     n <> "" /\ exists f fld, f ∈ fs /\ scalarField f = Some fld /\
       graphql.Name fld = n /\ filterable f = true) /\
  (NoDup (scalarNames fs) ->
   forall f fld, f ∈ fs -> scalarField f = Some fld -> graphql.Name fld <> "" ->
     filters !! graphql.Name fld =
     if filterable f then Some (filterCodeOf (graphql.Type_ fld)) else None).
Proof.
  intros Hok Hfs HR. rewrite FieldType_eq in HR.
  destruct entity as [[[t|] d]|]; try done. injection Hfs as <-.
  destruct (FieldType_loop _ _ _) as [|[fields filters0]] eqn:Hloop; [done|].
  injection HR as _ _ <-.
  destruct (FieldType_loop_filters _ _ _ _ _ Hok Hloop) as (Hsound & _ & Hcompl).
  split.
  - intros n. split.
    + intros [c Hc].
      destruct (Hsound n c Hc) as [Hempty|(? & f & fld & ? & ? & ? & ? & _)];
        [by rewrite lookup_empty in Hempty|].
      split; [done|]. by exists f, fld.
    + intros (Hn & f & fld & Hin & Hs & <- & Hfilt). by apply (Hcompl f).
  - intros Hnd f fld Hin Hs Hname.
    destruct (filters0 !! graphql.Name fld) as [c|] eqn:Hc.
    + destruct (Hsound _ c Hc) as [Hempty|(_ & f' & fld' & Hin' & Hs' & Hname' & Hfilt & ->)];
        [by rewrite lookup_empty in Hempty|].
      assert (f' = f) as -> by (by eapply scalarNames_inj).
      assert (fld' = fld) as -> by congruence.
      by rewrite Hfilt.
    + destruct (filterable f) eqn:Hfilt; [|done].
      destruct (Hcompl f fld Hin Hs Hname Hfilt) as [c Hc']. congruence.
Qed.

(** ** The relationship classifier *)

Ltac go_unfold :=
  unfold mbind, go_bind, mret, go_ret, panic, readEntity, readObject,
    Description, Single, Listing, OutputName in *.

(** The first if-chain of [relationship], as a function of the store. *)
Lemma relationshipName_eq f s :
  relationshipName f s =
  (s, Val
    (let kind := reflect.Kind_ (reflect.Typ f) in
     let name := ToLower (reflect.Name f) in
     if decide (kind = reflect.Slice) then inr (ToLower (Singular name))
     else if decide (fulltype f = "time.Time" \/ kind <> reflect.Struct)
     then inl errorNotRelationshipType
     else if decide (entitiesMap s !! name = None \/ entitiesObjects s !! name = None)
     then inl errorUnknownFieldType
     else inr name)).
Proof.
  unfold relationshipName. simpl.
  destruct (decide (reflect.Kind_ (reflect.Typ f) = reflect.Slice)) as [K|K].
  { by rewrite bool_decide_eq_true_2. }
  rewrite (bool_decide_eq_false_2 _ K).
  rewrite (bool_decide_eq_true_2 (_ <> reflect.Slice)) by done.
  rewrite andb_true_r.
  destruct (decide (fulltype f = "time.Time" \/ _)) as [[H|H]|H].
  - by rewrite (bool_decide_eq_true_2 _ H).
  - rewrite (bool_decide_eq_true_2 _ H). by rewrite orb_true_r.
  - rewrite !bool_decide_eq_false_2 by tauto. cbn [orb andb]. go_unfold.
    destruct (entitiesMap s !! _) eqn:E1, (entitiesObjects s !! _) eqn:E2;
      simpl; rewrite ?E2; simpl; done.
Qed.

(** *** Calls that only read the store *)

Lemma readonly_ret {A : Type} (a : A) : readonly (mret a).
Proof. done. Qed.

Lemma readonly_panic {A : Type} : readonly (@panic _ A).
Proof. done. Qed.


Lemma readonly_readEntity name : readonly (readEntity name).
Proof. done. Qed.

Lemma readonly_readObject name : readonly (readObject name).
Proof. done. Qed.

Lemma readonly_Instance entity : readonly (Instance entity).
Proof. by destruct entity. Qed.

Lemma readonly_Description entity : readonly (Description entity).
Proof. by destruct entity. Qed.

Lemma readonly_Single resolvers entity : readonly (Single resolvers entity).
Proof. by destruct resolvers. Qed.

Lemma readonly_Listing resolvers entity : readonly (Listing resolvers entity).
Proof. by destruct resolvers. Qed.

Lemma readonly_structFields typeof : readonly (structFields typeof).
Proof. by destruct typeof. Qed.

Lemma readonly_OutputName (typeInfo : graphql.Output Object) :
  readonly (OutputName typeInfo).
Proof. by destruct typeInfo as [| | | | |[o|]|]. Qed.

Lemma readonly_relationshipName f : readonly (relationshipName f).
Proof. intros s. by rewrite relationshipName_eq. Qed.

Create HintDb readonly.

#[local] Hint Resolve readonly_ret readonly_panic readonly_readEntity
  readonly_readObject readonly_Instance readonly_Description readonly_Single
  readonly_Listing readonly_structFields readonly_OutputName
  readonly_relationshipName : readonly.







(** *** The outcomes of relationship *)

(** [relationship] as a function of the store: the store is returned
    as it was, and the outcome is read off the kind, the full type and
    the two maps. *)
Lemma relationship_eq f resolvers s :
  relationship f resolvers s =
  (s,
   let kind := reflect.Kind_ (reflect.Typ f) in
   let name := ToLower (reflect.Name f) in
   if decide (kind = reflect.Slice) then
     let name := ToLower (Singular name) in
     let object := default nil (entitiesObjects s !! name) in
     match default nil (entitiesMap s !! name), resolvers with
     | Some impl, Some r =>
         Val (Some (graphql.mkField name
                      (graphql.NewList (graphql.ObjectType object))
                      ("Get a list of " +:+ OutputString (graphql.ObjectType object)
                         +:+ " (" +:+ DescriptionOf impl +:+ ") according to filters")
                      (ListingOf r (Some impl))),
              nil)
     | _, _ => Panic
     end
   else if decide (fulltype f = "time.Time" \/ kind <> reflect.Struct) then
     Val (nil, Some errorNotRelationshipType)
   else if decide (entitiesMap s !! name = None \/ entitiesObjects s !! name = None) then
     Val (nil, Some errorUnknownFieldType)
   else
     match default nil (entitiesMap s !! name),
           default nil (entitiesObjects s !! name), resolvers with
     | Some impl, Some o, Some r =>
         Val (Some (graphql.mkField name (graphql.ObjectType (Some o))
                      ("Get a single " +:+ ObjectName o
                         +:+ " (" +:+ DescriptionOf impl +:+ ") by id or slug")
                      (SingleOf r (Some impl))),
              nil)
     | _, _, _ => Panic
     end).
Proof.
  unfold relationship. unfold mbind at 1, go_bind at 1.
  rewrite relationshipName_eq. cbv zeta.
  destruct (decide (reflect.Kind_ (reflect.Typ f) = reflect.Slice)) as [K|K].
  { rewrite K. simpl. go_unfold. simpl.
    destruct (entitiesMap s !! _) as [[impl|]|], (entitiesObjects s !! _) as [[o|]|],
      resolvers as [r|]; done. }
  destruct (decide (_ \/ _)) as [H|H]; [done|].
  destruct (decide (_ \/ _)) as [E|E]; [done|].
  rewrite bool_decide_eq_true_2 by (apply dec_stable; tauto).
  go_unfold. simpl.
  destruct (entitiesMap s !! _) as [[impl|]|], (entitiesObjects s !! _) as [[o|]|],
    resolvers as [r|]; done.
Qed.


(** C5. On a field of a well-formed type (the full type time.Time is
    of kind Struct), [field] and [relationship] never both return
    without error. *)
Theorem classifiers_exclusive f resolvers s :
  (fulltype f = "time.Time" -> reflect.Kind_ (reflect.Typ f) = reflect.Struct) ->
  ~ (snd (field f) = nil /\
     exists s' fld, relationship f resolvers s = (s', Val (fld, nil))).
Proof.
  intros Hwf [Hfield (s' & fld & HR)].
  rewrite relationship_eq in HR. cbv zeta in HR.
  destruct (field_outcomes f) as [(t & _ & Hk)|[(He & _)|(He & _)]];
    [|by rewrite He in Hfield..].
  assert (reflect.Kind_ (reflect.Typ f) <> reflect.Slice /\
          (fulltype f = "time.Time" \/
           reflect.Kind_ (reflect.Typ f) <> reflect.Struct)) as [K H].
  { destruct Hk as [Hk|(_ & Ht & _)].
    - destruct (reflect.Kind_ _); simpl in Hk; try done; (split; [done|by right]).
    - rewrite (Hwf Ht). split; [done|by left]. }
  rewrite decide_False in HR by done. by rewrite decide_True in HR by done.
Qed.

(** [RelationshipType] on each kind of entity value. *)
Lemma RelationshipType_eq entity resolvers s :
  RelationshipType entity resolvers s =
  match entityFields entity with
  | Some fs => RelationshipType_loop fs resolvers ∅ s
  | None => (s, Panic)
  end.
Proof. by destruct entity as [[[t|] d]|]. Qed.

(** A field that [relationship] rejects as not a relationship leaves
    the loop as it found it, wherever it stands. *)
Lemma RelationshipType_loop_skip f (pre post : list reflect.StructField) resolvers
    (fields : gmap string (graphql.Field FieldResolveFn Object)) s :
  (forall s, relationship f resolvers s = (s, Val (nil, Some errorNotRelationshipType))) ->
  RelationshipType_loop (pre ++ f :: post) resolvers fields s =
  RelationshipType_loop (pre ++ post) resolvers fields s.
Proof.
  intros Hf. revert fields s.
  induction pre as [|f0 pre IH]; intros; simpl.
  - unfold mbind, go_bind. rewrite Hf. by rewrite decide_True.
  - unfold mbind, go_bind. destruct (relationship f0 resolvers s) as [s1 [[fld e]|]]; [|done].
    case_decide; [by apply IH|]. destruct e; [done|]. destruct fld; [by apply IH|done].
Qed.

(** C8. A field of full type time.Time, whose kind is Struct, is a
    scalar: [field] gives it the type graphql.DateTime, with the code
    filterDate when it is filterable; [relationship] rejects it with the
    not-a-relationship-type error, and [RelationshipType] skips it. *)
Theorem time_field_is_scalar f :
  reflect.Kind_ (reflect.Typ f) = reflect.Struct ->
  fulltype f = "time.Time" ->
  field f = (scalarDefinition f graphql.DateTime, nil) /\
  (filterable f = true -> filter (fst (field f)) = filterDate) /\
  (forall resolvers s,
     relationship f resolvers s = (s, Val (nil, Some errorNotRelationshipType))) /\
  (forall name description pre post resolvers s,
     RelationshipType (structEntity name (pre ++ f :: post) description) resolvers s =
     RelationshipType (structEntity name (pre ++ post) description) resolvers s).
Proof.
  intros K Ht.
  assert (field f = (scalarDefinition f graphql.DateTime, nil)) as Hf.
  { destruct (field_outcomes f) as [(t & Hf & [Hk|(_ & _ & ->)])|[(_ & ? & _)|(_ & _ & ? & _)]];
      try done.
    by rewrite K in Hk. }
  assert (forall resolvers s,
    relationship f resolvers s = (s, Val (nil, Some errorNotRelationshipType))) as Hr.
  { intros. rewrite relationship_eq. cbv zeta.
    rewrite decide_False by (by rewrite K). by rewrite decide_True by (by left). }
  split; [done|]. split; [|split; [done|]].
  - rewrite Hf. simpl. by intros ->.
  - intros. rewrite !RelationshipType_eq. simpl.
    by apply RelationshipType_loop_skip.
Qed.


(** * Further properties of the two passes *)

(** ** FieldType: outcomes *)

(** Without a field that [field] rejects with the not-a-relationship
    error, the loop runs to its end. *)
Lemma FieldType_loop_total (fs : list reflect.StructField)
    (fields : gmap string (graphql.Field FieldResolveFn Object))
    (filters : gmap string Z) :
  (forall f, f ∈ fs -> snd (field f) <> Some errorNotRelationshipType) ->
  exists fields' filters', FieldType_loop fs fields filters = inr (fields', filters').
Proof.
  revert fields filters. induction fs as [|f fs IH]; intros fields filters Hok.
  { by eexists _, _. }
  assert (forall f', f' ∈ fs -> snd (field f') <> Some errorNotRelationshipType) as Hok'
    by (intros f' ?; apply Hok; by right).
  destruct (field_outcomes f) as [(t & Ht & _)|[(He & _)|(He & _)]].
  - assert (scalarField f = Some (graphql.mkField (ToLower (fieldName f)) t "" nil)) as Hs
      by (unfold scalarField; by rewrite Ht).
    rewrite (FieldType_loop_scalar _ _ _ _ _ Hs). case_decide; by apply IH.
  - rewrite FieldType_loop_skip by (by rewrite He). by apply IH.
  - destruct (Hok f); [by left|by rewrite He].
Qed.

(** X1. On an entity whose instance is a struct, [FieldType] does not
    panic and has two outcomes: the not-a-relationship error with a nil
    object and nil filters, exactly when [field] rejects some field with
    that error; or an object and a non-nil filters map without error. *)
Theorem FieldType_outcomes entity (fs : list reflect.StructField) s :
  entityFields entity = Some fs ->
  (FieldType entity s = (s, Val (nil, nil, Some errorNotRelationshipType)) /\
   exists f, f ∈ fs /\ snd (field f) = Some errorNotRelationshipType) \/
  ((exists object filters,
      FieldType entity s = (s, Val (Some object, Some filters, nil))) /\
   forall f, f ∈ fs -> snd (field f) <> Some errorNotRelationshipType).
Proof.
  intros Hfs. rewrite FieldType_eq.
  destruct entity as [[[t|] d]|]; try done. injection Hfs as <-.
  destruct (decide (Exists (fun f => snd (field f) = Some errorNotRelationshipType)
                      (reflect.Fields t))) as [Hex|Hall].
  - apply Exists_exists in Hex as (f & Hin & Hf). left.
    rewrite (FieldType_loop_abort f) by done. eauto.
  - right.
    assert (forall f, f ∈ reflect.Fields t ->
              snd (field f) <> Some errorNotRelationshipType) as Hok.
    { intros f Hin Hf. apply Hall, Exists_exists. eauto. }
    split; [|done].
    destruct (FieldType_loop_total _ ∅ ∅ Hok) as (fields & filters & ->). eauto.
Qed.

(** X2. [FieldType] panics exactly on an entity that is nil or whose
    instance is not a struct, and [RelationshipType] panics on such an
    entity too, whatever the maps and the resolvers. *)
Theorem panic_without_struct entity resolvers s :
  (FieldType entity s = (s, Panic) <-> entityFields entity = None) /\
  (entityFields entity = None -> RelationshipType entity resolvers s = (s, Panic)).
Proof.
  split.
  - rewrite FieldType_eq. destruct entity as [[[t|] d]|]; simpl; [|done..].
    split; [|done]. by destruct (FieldType_loop _ _ _) as [|[? ?]].
  - rewrite RelationshipType_eq. by intros ->.
Qed.

(** ** FieldType: the two maps *)

Lemma last_omap_cons {A B : Type} (g : A -> option B) (x : A) (l : list A) :
  last (omap g (x :: l)) =
  match last (omap g l) with
  | Some y => Some y
  | None => g x
  end.
Proof.
  simpl. destruct (g x) as [y|]; [|by destruct (last _)].
  rewrite last_cons. by destruct (last _).
Qed.

(** The maps a loop ends with: under each name, the entry of the last
    field that writes one, and what was there at the start if no field
    does. *)
Lemma FieldType_loop_last (fs : list reflect.StructField)
    (fields fields' : gmap string (graphql.Field FieldResolveFn Object))
    (filters filters' : gmap string Z) :
  FieldType_loop fs fields filters = inr (fields', filters') ->
  forall n,
    fields' !! n =
      match last (omap (fieldEntry n) fs) with
      | Some fld => Some fld
      | None => fields !! n
      end /\
    filters' !! n =
      match last (omap (filterEntry n) fs) with
      | Some c => Some c
      | None => filters !! n
      end.
Proof.
  revert fields filters.
  induction fs as [|f fs IH]; intros fields filters HR n.
  { by injection HR as -> ->. }
  rewrite !last_omap_cons.
  destruct (FieldType_loop_head _ _ _ _ _ HR) as [(Hno & HR')|(fld & Hs)].
  { destruct (IH _ _ HR' n) as [-> ->].
    assert (fieldEntry n f = None) as -> by (unfold fieldEntry; by rewrite Hno).
    assert (filterEntry n f = None) as -> by (unfold filterEntry; by rewrite Hno).
    split; by destruct (last _). }
  rewrite (FieldType_loop_scalar _ _ _ _ _ Hs) in HR.
  assert (fieldEntry n f =
          if bool_decide (graphql.Name fld = n /\ n <> "") then Some fld else None)
    as -> by (unfold fieldEntry; by rewrite Hs).
  assert (filterEntry n f =
          if bool_decide (graphql.Name fld = n /\ n <> "" /\
                          filter (fst (field f)) <> filterNone)
          then Some (filter (fst (field f))) else None)
    as -> by (unfold filterEntry; by rewrite Hs).
  case_decide as Hname.
  - destruct (IH _ _ HR n) as [-> ->]. split.
    + destruct (last _); [done|].
      destruct (decide (graphql.Name fld = n)) as [Heq|Hne].
      * rewrite bool_decide_eq_true_2 by (split; congruence).
        subst n. by rewrite lookup_insert_eq.
      * rewrite bool_decide_eq_false_2 by (by intros [? _]).
        by rewrite lookup_insert_ne.
    + destruct (last _); [done|].
      destruct (decide (filter (fst (field f)) <> filterNone)) as [Hc|Hc];
        [destruct (decide (graphql.Name fld = n)) as [Heq|Hne]|].
      * rewrite bool_decide_eq_true_2 by (repeat split; congruence).
        subst n. by rewrite lookup_insert_eq.
      * rewrite bool_decide_eq_false_2 by (by intros (? & _)).
        by rewrite lookup_insert_ne.
      * by rewrite bool_decide_eq_false_2 by (by intros (_ & _ & ?)).
  - destruct (IH _ _ HR n) as [-> ->].
    rewrite (bool_decide_eq_false_2 (_ /\ _ /\ _)) by (intros (? & ? & _); congruence).
    rewrite bool_decide_eq_false_2 by (intros (? & ?); congruence).
    split; by destruct (last _).
Qed.

(** [FieldType] on a struct entity without a rejected field, with the
    maps of its loop. *)
Lemma FieldType_success_inv entity s s' (object : Object)
    (filters : option (gmap string Z)) (e : error) :
  FieldType entity s = (s', Val (Some object, filters, e)) ->
  exists t description fields filters0,
    entity = Some (mkEntity (reflect.OfStruct t) description) /\
    FieldType_loop (reflect.Fields t) ∅ ∅ = inr (fields, filters0) /\
    object = NewObject (graphql.mkObjectConfig (ToLower (reflect.StructName t))
                          description fields) /\
    filters = Some filters0 /\ e = nil /\ s' = s.
Proof.
  rewrite FieldType_eq. destruct entity as [[[t|] d]|]; try done.
  destruct (FieldType_loop _ _ _) as [|[fields filters0]] eqn:Hloop; [done|].
  intros [= <- <- <- <-]. by exists t, d, fields, filters0.
Qed.

(** X3. The object [FieldType] returns for a struct is named by the
    lowercased struct name and described by the entity; under each name
    its fields map holds the definition of the last scalar field with
    that non-empty output name, and the filters map the code of the last
    such field whose code is not filterNone. A later field replaces an
    earlier one of the same output name. *)
Theorem FieldType_last_wins (name description : string)
    (fs : list reflect.StructField) s s' (object : Object)
    (filters : gmap string Z) :
  FieldType (structEntity name fs description) s =
    (s', Val (Some object, Some filters, nil)) ->
  exists fields,
    object = NewObject (graphql.mkObjectConfig (ToLower name) description fields) /\
    (forall n, fields !! n = last (omap (fieldEntry n) fs)) /\
    (forall n, filters !! n = last (omap (filterEntry n) fs)).
Proof.
  intros HR.
  destruct (FieldType_success_inv _ _ _ _ _ _ HR)
    as (t & d & fields & filters0 & [= <- <-] & Hloop & -> & [= <-] & _).
  exists fields. split; [done|]. simpl in Hloop.
  split; intros n; destruct (FieldType_loop_last _ _ _ _ _ Hloop n) as [Hf Hc];
    [rewrite Hf|rewrite Hc]; rewrite lookup_empty; clear; by case_match.
Qed.

(** What a field writes in the filters map it also writes in the fields
    map. *)
Lemma filterEntry_fieldEntry n f c :
  filterEntry n f = Some c ->
  c <> filterNone /\ n <> "" /\ is_Some (fieldEntry n f).
Proof.
  unfold filterEntry, fieldEntry. destruct (scalarField f) as [fld|]; [|done].
  case_bool_decide as H; [|done]. destruct H as (Hn & Hne & Hc). intros [= <-].
  by rewrite bool_decide_eq_true_2.
Qed.

(** X4. Every key of the filters map [FieldType] returns is a non-empty
    name that the returned object has a field for, and no filter code in
    the map is filterNone. *)
Theorem filters_within_fields entity s s' (object : Object)
    (filters : gmap string Z) (e : error) :
  FieldType entity s = (s', Val (Some object, Some filters, e)) ->
  exists config, object = NewObject config /\
    forall n c, filters !! n = Some c ->
      c <> filterNone /\ n <> "" /\ is_Some (graphql.ConfigFields config !! n).
Proof.
  intros HR.
  destruct (FieldType_success_inv _ _ _ _ _ _ HR)
    as (t & d & fields & filters0 & -> & Hloop & -> & [= <-] & _).
  eexists. split; [done|]. simpl. intros n c Hc.
  destruct (FieldType_loop_last _ _ _ _ _ Hloop n) as [Hf Hc'].
  rewrite Hc, lookup_empty in Hc'. rewrite Hf, lookup_empty.
  destruct (last (omap (filterEntry n) _)) as [c'|] eqn:Hlast; [|done].
  injection Hc' as ->.
  apply last_Some_elem_of, list_elem_of_omap in Hlast as (f & Hin & Hentry).
  destruct (filterEntry_fieldEntry _ _ _ Hentry) as (Hnone & Hn & [fld Hfld]).
  split; [done|]. split; [done|].
  assert (is_Some (last (omap (fieldEntry n) (reflect.Fields t)))) as [fld' ->];
    [|done].
  apply last_is_Some. intros Hnil.
  assert (fld ∈ omap (fieldEntry n) (reflect.Fields t)) as Hmem
    by (apply list_elem_of_omap; eauto).
  rewrite Hnil in Hmem. by apply elem_of_nil in Hmem.
Qed.

(** X5. Every field of the object [FieldType] returns is stored under
    its own name, which is not empty; its type is one of the five
    scalars, it has no description and no resolver. *)
Theorem object_fields_are_scalars entity s s' (object : Object)
    (filters : option (gmap string Z)) (e : error) :
  FieldType entity s = (s', Val (Some object, filters, e)) ->
  exists config, object = NewObject config /\
    forall n fld, graphql.ConfigFields config !! n = Some fld ->
      graphql.Name fld = n /\ n <> "" /\
      graphql.Type_ fld ∈
        [graphql.String; graphql.Boolean; graphql.Int; graphql.Float;
         graphql.DateTime] /\
      graphql.Description fld = "" /\
      graphql.Resolve fld = nil.
Proof.
  intros HR.
  destruct (FieldType_success_inv _ _ _ _ _ _ HR)
    as (t & d & fields & filters0 & -> & Hloop & -> & _).
  eexists. split; [done|]. simpl. intros n fld Hn.
  destruct (FieldType_loop_last _ _ _ _ _ Hloop n) as [Hf _].
  rewrite Hn, lookup_empty in Hf.
  destruct (last (omap (fieldEntry n) _)) as [fld'|] eqn:Hlast; [|done].
  injection Hf as ->.
  apply last_Some_elem_of, list_elem_of_omap in Hlast as (f & Hin & Hentry).
  unfold fieldEntry in Hentry.
  destruct (scalarField f) as [fld0|] eqn:Hs; [|done].
  case_bool_decide as H; [|done]. destruct H as [Hname Hne].
  injection Hentry as ->.
  destruct (scalarField_inv _ _ Hs) as (ty & _ & -> & Hty). simpl in *.
  repeat split; try done.
  destruct Hty as [->|[->|[->|[->| ->]]]]; set_solver.
Qed.

(** ** field and relationship: what decides the outcome *)

(** X6. The error of [field] and the GraphQL type it assigns depend on
    the type of the struct field only: no field name and no tag, a
    malformed filterable tag included, makes [field] fail or changes
    the type. *)
Theorem field_depends_on_type f f' :
  reflect.Typ f = reflect.Typ f' ->
  snd (field f) = snd (field f') /\
  graphql.Type_ <$> field_ (fst (field f)) =
  graphql.Type_ <$> field_ (fst (field f')).
Proof.
  intros Ht.
  assert (fulltype f = fulltype f') as Hfull by (unfold fulltype; by rewrite Ht).
  destruct (field_outcomes f) as [(t & -> & Hk)|[(-> & Hn & Hs)|(-> & Hk & Hn & Hs)]];
    destruct (field_outcomes f')
      as [(t' & -> & Hk')|[(-> & Hn' & Hs')|(-> & Hk' & Hn' & Hs')]];
    rewrite <- ?Ht, <- ?Hfull in *; simpl; try done.
  - assert (t = t') as -> by (destruct Hk as [?|(? & ? & ?)], Hk' as [?|(? & ? & ?)]; congruence).
    done.
  - destruct Hk as [Hk|(_ & ? & _)]; [|done].
    by destruct Hs' as [K|K]; rewrite K in Hk.
  - destruct Hk as [Hk|(_ & ? & _)]; [congruence|done].
  - destruct Hk' as [Hk'|(_ & ? & _)]; [|done].
    by destruct Hs as [K|K]; rewrite K in Hk'.
  - destruct Hs' as [? ?]. by destruct Hs.
  - destruct Hk' as [Hk'|(_ & ? & _)]; [congruence|done].
  - destruct Hs as [? ?]. by destruct Hs'.
Qed.


(** The four outcomes of [relationship]. *)
Lemma relationship_cases f resolvers s :
  relationship f resolvers s = (s, Val (nil, Some errorNotRelationshipType)) \/
  relationship f resolvers s = (s, Val (nil, Some errorUnknownFieldType)) \/
  (exists fld, relationship f resolvers s = (s, Val (Some fld, nil))) \/
  relationship f resolvers s = (s, Panic).
Proof. rewrite relationship_eq. cbv zeta. repeat case_match; eauto. Qed.

(** X8. [relationship] returns a field or an error and never both or
    neither: the field is nil exactly when the error is not. Its error
    is never the not-a-simple-field-type error. *)
Theorem relationship_field_xor_error f resolvers s s'
    (fld : option (graphql.Field FieldResolveFn Object)) (e : error) :
  relationship f resolvers s = (s', Val (fld, e)) ->
  (fld = nil <-> e <> nil) /\ e <> Some errorNotSimpleFieldType.
Proof.
  intros HR.
  destruct (relationship_cases f resolvers s) as [H|[H|[[fld' H]|H]]];
    rewrite H in HR; by simplify_eq.
Qed.

(** X9. [relationship] rejects a field as not a relationship exactly
    when its kind is not Slice and it is time.Time or not of kind
    Struct; the store and the resolvers have no part in it. *)
Theorem relationship_not_relationship_iff f resolvers s :
  (exists s' fld,
     relationship f resolvers s = (s', Val (fld, Some errorNotRelationshipType))) <->
  reflect.Kind_ (reflect.Typ f) <> reflect.Slice /\
  (fulltype f = "time.Time" \/ reflect.Kind_ (reflect.Typ f) <> reflect.Struct).
Proof.
  rewrite relationship_eq. cbv zeta.
  destruct (decide (reflect.Kind_ (reflect.Typ f) = reflect.Slice)) as [K|K].
  { split; [|intros [HK _]; by destruct HK]. intros (s' & fld & HR).
    by repeat case_match. }
  destruct (decide (_ \/ _)) as [H|H]; [split; [done|by eauto]|].
  split; [|intros [_ ?]; tauto]. intros (s' & fld & HR).
  case_decide; [done|]. by repeat case_match.
Qed.

(** X10. [relationship] returns a field exactly when the resolvers are
    not nil and the name it looks up holds a non-nil entity and, for
    kind Struct, a non-nil object: for kind Slice the singularized
    lowercased name in entitiesMap, for kind Struct other than time.Time
    the lowercased name in both maps. *)
Theorem relationship_succeeds_iff f resolvers s :
  (exists s' fld, relationship f resolvers s = (s', Val (Some fld, nil))) <->
  exists r impl, resolvers = Some r /\
    (reflect.Kind_ (reflect.Typ f) = reflect.Slice /\
     entitiesMap s !! ToLower (Singular (ToLower (reflect.Name f))) = Some (Some impl) \/
     reflect.Kind_ (reflect.Typ f) = reflect.Struct /\
     fulltype f <> "time.Time" /\
     entitiesMap s !! ToLower (reflect.Name f) = Some (Some impl) /\
     exists o, entitiesObjects s !! ToLower (reflect.Name f) = Some (Some o)).
Proof.
  rewrite relationship_eq. cbv zeta.
  destruct (decide (reflect.Kind_ (reflect.Typ f) = reflect.Slice)) as [K|K].
  { split.
    - intros (s' & fld & HR).
      destruct (entitiesMap s !! _) as [[impl|]|] eqn:E, resolvers as [r|];
        simpl in HR; try done.
      exists r, impl. split; [done|]. by left.
    - intros (r & impl & -> & [[_ ->]|[K' _]]); [by eauto|]. by rewrite K in K'. }
  destruct (decide (_ \/ _)) as [H|H].
  { split; [by intros (s' & fld & HR)|].
    intros (r & impl & _ & [[? _]|(? & ? & _)]); [done|tauto]. }
  destruct (decide (_ \/ _)) as [E|E].
  { split; [by intros (s' & fld & HR)|].
    intros (r & impl & _ & [[? _]|(_ & _ & E1 & o & E2)]); [done|].
    destruct E as [E|E];
      [discriminate (eq_trans (eq_sym E) E1)|discriminate (eq_trans (eq_sym E) E2)]. }
  split.
  - intros (s' & fld & HR).
    destruct (entitiesMap s !! _) as [[impl|]|] eqn:E1,
      (entitiesObjects s !! _) as [[o|]|] eqn:E2, resolvers as [r|];
      simpl in HR; try done.
    exists r, impl. split; [done|]. right.
    split; [apply dec_stable; tauto|]. split; [tauto|]. split; [done|by eauto].
  - intros (r & impl & -> & [[? _]|(_ & _ & -> & o & ->)]); [done|]. by eauto.
Qed.

(** X11. [relationship] panics in two situations. For kind Slice: the
    resolvers are nil or entitiesMap has no non-nil entity under the
    singularized lowercased name, a missing name included. For kind
    Struct other than time.Time with the lowercased name in both maps:
    the resolvers, the entity or the object under that name is nil. *)
Theorem relationship_panics_iff f resolvers s :
  relationship f resolvers s = (s, Panic) <->
  (reflect.Kind_ (reflect.Typ f) = reflect.Slice /\
   (resolvers = nil \/
    default nil (entitiesMap s !! ToLower (Singular (ToLower (reflect.Name f)))) = nil)) \/
  (reflect.Kind_ (reflect.Typ f) = reflect.Struct /\
   fulltype f <> "time.Time" /\
   is_Some (entitiesMap s !! ToLower (reflect.Name f)) /\
   is_Some (entitiesObjects s !! ToLower (reflect.Name f)) /\
   (resolvers = nil \/
    entitiesMap s !! ToLower (reflect.Name f) = Some nil \/
    entitiesObjects s !! ToLower (reflect.Name f) = Some nil)).
Proof.
  rewrite relationship_eq. cbv zeta.
  destruct (decide (reflect.Kind_ (reflect.Typ f) = reflect.Slice)) as [K|K].
  { split.
    - intros HR. left. split; [done|].
      destruct (default nil (entitiesMap s !! _)) as [impl|]; [|by right].
      destruct resolvers; [done|by left].
    - intros [(_ & [-> | ->])|(K' & _)]; [by case_match|done|by rewrite K in K']. }
  destruct (decide (_ \/ _)) as [H|H].
  { split; [done|]. intros [(? & _)|(? & ? & _)]; [done|tauto]. }
  destruct (decide (_ \/ _)) as [E|E].
  { split; [done|]. intros [(? & _)|(_ & _ & [? E1] & [? E2] & _)]; [done|].
    destruct E as [E|E];
      [discriminate (eq_trans (eq_sym E) E1)|discriminate (eq_trans (eq_sym E) E2)]. }
  split.
  - intros HR. right. split; [apply dec_stable; tauto|]. split; [tauto|].
    destruct (entitiesMap s !! _) as [[impl|]|] eqn:E1,
      (entitiesObjects s !! _) as [[o|]|] eqn:E2;
      try (destruct E; by eauto).
    + destruct resolvers; [done|]. repeat split; eauto.
    + repeat split; eauto.
    + repeat split; eauto.
    + repeat split; eauto.
  - intros [(? & _)|(_ & _ & _ & _ & [-> |[-> | ->]])]; [done|..];
      simpl; by repeat case_match.
Qed.

(** X12. A field that [field] skips as not simple is never skipped by
    [relationship] as not a relationship: no Struct or Slice field is
    dropped by both passes. *)
Theorem not_simple_is_relationship_material f resolvers s :
  snd (field f) = Some errorNotSimpleFieldType ->
  ~ exists s' fld,
      relationship f resolvers s = (s', Val (fld, Some errorNotRelationshipType)).
Proof.
  intros Hf (s' & fld & HR). rewrite relationship_eq in HR. cbv zeta in HR.
  destruct (field_outcomes f) as [(t & Ht & _)|[(_ & Hn & Hk)|(He & _)]];
    [by rewrite Ht in Hf| |by rewrite He in Hf].
  destruct (decide (reflect.Kind_ (reflect.Typ f) = reflect.Slice)) as [K|K].
  { by repeat case_match. }
  destruct Hk as [Hk|Hk]; [|done].
  rewrite decide_False in HR by tauto.
  case_decide; [done|]. by repeat case_match.
Qed.

(** ** RelationshipType *)

(** One round of the loop of [RelationshipType], by the outcome of
    [relationship] on the field. *)
Lemma RelationshipType_loop_rejected f (rest : list reflect.StructField) resolvers
    (fields : gmap string (graphql.Field FieldResolveFn Object)) s :
  relationship f resolvers s = (s, Val (nil, Some errorNotRelationshipType)) ->
  RelationshipType_loop (f :: rest) resolvers fields s =
  RelationshipType_loop rest resolvers fields s.
Proof. intros H. simpl. unfold mbind, go_bind. rewrite H. by rewrite decide_True. Qed.

Lemma RelationshipType_loop_unknown f (rest : list reflect.StructField) resolvers
    (fields : gmap string (graphql.Field FieldResolveFn Object)) s :
  relationship f resolvers s = (s, Val (nil, Some errorUnknownFieldType)) ->
  RelationshipType_loop (f :: rest) resolvers fields s =
  (s, Val (fields, Some errorUnknownFieldType)).
Proof. intros H. simpl. unfold mbind, go_bind. rewrite H. by rewrite decide_False. Qed.

Lemma RelationshipType_loop_accepted f (rest : list reflect.StructField) resolvers
    (fields : gmap string (graphql.Field FieldResolveFn Object)) s fld :
  relationship f resolvers s = (s, Val (Some fld, nil)) ->
  RelationshipType_loop (f :: rest) resolvers fields s =
  RelationshipType_loop rest resolvers (<[graphql.Name fld := fld]> fields) s.
Proof. intros H. simpl. unfold mbind, go_bind. rewrite H. by rewrite decide_False. Qed.

Lemma RelationshipType_loop_panic f (rest : list reflect.StructField) resolvers
    (fields : gmap string (graphql.Field FieldResolveFn Object)) s :
  relationship f resolvers s = (s, Panic) ->
  RelationshipType_loop (f :: rest) resolvers fields s = (s, Panic).
Proof. intros H. simpl. unfold mbind, go_bind. by rewrite H. Qed.

(** The loop over a concatenation: the second part runs only when the
    first ends without error, from the map the first ends with. *)
Lemma RelationshipType_loop_app (pre post : list reflect.StructField) resolvers
    (fields : gmap string (graphql.Field FieldResolveFn Object)) s :
  RelationshipType_loop (pre ++ post) resolvers fields s =
  match RelationshipType_loop pre resolvers fields s with
  | (s', Val (fields', None)) => RelationshipType_loop post resolvers fields' s'
  | outcome => outcome
  end.
Proof.
  revert fields. induction pre as [|f pre IH]; intros fields; [done|].
  rewrite <- app_comm_cons.
  destruct (relationship_cases f resolvers s) as [H|[H|[[fld H]|H]]].
  - rewrite !(RelationshipType_loop_rejected _ _ _ _ _ H). apply IH.
  - by rewrite !(RelationshipType_loop_unknown _ _ _ _ _ H).
  - rewrite !(RelationshipType_loop_accepted _ _ _ _ _ _ H). apply IH.
  - by rewrite !(RelationshipType_loop_panic _ _ _ _ _ H).
Qed.

(** The three outcomes of the loop. *)
Lemma RelationshipType_loop_outcomes (fs : list reflect.StructField) resolvers
    (fields : gmap string (graphql.Field FieldResolveFn Object)) s :
  ((exists fields', RelationshipType_loop fs resolvers fields s = (s, Val (fields', nil))) /\
   forall f, f ∈ fs ->
     relationship f resolvers s = (s, Val (nil, Some errorNotRelationshipType)) \/
     exists fld, relationship f resolvers s = (s, Val (Some fld, nil))) \/
  ((exists fields', RelationshipType_loop fs resolvers fields s =
                     (s, Val (fields', Some errorUnknownFieldType))) /\
   exists f, f ∈ fs /\
     relationship f resolvers s = (s, Val (nil, Some errorUnknownFieldType))) \/
  (RelationshipType_loop fs resolvers fields s = (s, Panic) /\
   exists f, f ∈ fs /\ relationship f resolvers s = (s, Panic)).
Proof.
  revert fields. induction fs as [|f fs IH]; intros fields.
  { left. split; [by eexists|]. intros f Hin. by apply elem_of_nil in Hin. }
  assert (forall fields0 : gmap string (graphql.Field FieldResolveFn Object),
    (relationship f resolvers s = (s, Val (nil, Some errorNotRelationshipType)) \/
     exists fld, relationship f resolvers s = (s, Val (Some fld, nil))) ->
    RelationshipType_loop (f :: fs) resolvers fields s =
      RelationshipType_loop fs resolvers fields0 s ->
    ((exists fields', RelationshipType_loop (f :: fs) resolvers fields s =
                       (s, Val (fields', nil))) /\
     forall f', f' ∈ f :: fs ->
       relationship f' resolvers s = (s, Val (nil, Some errorNotRelationshipType)) \/
       exists fld, relationship f' resolvers s = (s, Val (Some fld, nil))) \/
    ((exists fields', RelationshipType_loop (f :: fs) resolvers fields s =
                       (s, Val (fields', Some errorUnknownFieldType))) /\
     exists f', f' ∈ f :: fs /\
       relationship f' resolvers s = (s, Val (nil, Some errorUnknownFieldType))) \/
    (RelationshipType_loop (f :: fs) resolvers fields s = (s, Panic) /\
     exists f', f' ∈ f :: fs /\ relationship f' resolvers s = (s, Panic))) as Hnext.
  { intros fields0 Hf ->.
    destruct (IH fields0) as [[Hok Hall]|[[Herr (f' & Hin & Hf')]|[Hp (f' & Hin & Hf')]]].
    - left. split; [done|]. intros f' Hin.
      apply elem_of_cons in Hin as [->|Hin]; [done|by apply Hall].
    - right. left. split; [done|]. exists f'. split; [by right|done].
    - right. right. split; [done|]. exists f'. split; [by right|done]. }
  destruct (relationship_cases f resolvers s) as [H|[H|[[fld H]|H]]].
  - apply (Hnext fields); [by left|]. by apply RelationshipType_loop_rejected.
  - right. left. rewrite (RelationshipType_loop_unknown _ _ _ _ _ H).
    split; [by eexists|]. exists f. split; [by left|done].
  - apply (Hnext (<[graphql.Name fld := fld]> fields)); [by eauto|].
    by apply RelationshipType_loop_accepted.
  - right. right. rewrite (RelationshipType_loop_panic _ _ _ _ _ H).
    split; [done|]. exists f. split; [by left|done].
Qed.

(** X13. On an entity whose instance is a struct, [RelationshipType]
    ends in one of three ways: without error, when [relationship]
    accepts or rejects as not a relationship every field; with the
    unknown-type error, the only error it returns, when [relationship]
    returns it for some field; or with a panic, when [relationship]
    panics on some field. The store is as before in each. *)
Theorem RelationshipType_outcomes entity (fs : list reflect.StructField) resolvers s :
  entityFields entity = Some fs ->
  ((exists fields, RelationshipType entity resolvers s = (s, Val (fields, nil))) /\
   forall f, f ∈ fs ->
     relationship f resolvers s = (s, Val (nil, Some errorNotRelationshipType)) \/
     exists fld, relationship f resolvers s = (s, Val (Some fld, nil))) \/
  ((exists fields, RelationshipType entity resolvers s =
                    (s, Val (fields, Some errorUnknownFieldType))) /\
   exists f, f ∈ fs /\
     relationship f resolvers s = (s, Val (nil, Some errorUnknownFieldType))) \/
  (RelationshipType entity resolvers s = (s, Panic) /\
   exists f, f ∈ fs /\ relationship f resolvers s = (s, Panic)).
Proof.
  intros Hfs. rewrite RelationshipType_eq, Hfs.
  apply RelationshipType_loop_outcomes.
Qed.

(** X14. When [relationship] returns the unknown-type error for a
    field, [RelationshipType] stops there: it returns that error with
    the relationship fields of the fields before it, and does not visit
    the fields after it. *)
Theorem RelationshipType_stops_at_unknown (name description : string)
    (pre post : list reflect.StructField) f resolvers s
    (fields : gmap string (graphql.Field FieldResolveFn Object)) :
  RelationshipType (structEntity name pre description) resolvers s =
    (s, Val (fields, nil)) ->
  relationship f resolvers s = (s, Val (nil, Some errorUnknownFieldType)) ->
  RelationshipType (structEntity name (pre ++ f :: post) description) resolvers s =
    (s, Val (fields, Some errorUnknownFieldType)).
Proof.
  rewrite !RelationshipType_eq. simpl. intros Hpre Hf.
  rewrite RelationshipType_loop_app, Hpre.
  by apply RelationshipType_loop_unknown.
Qed.

(** The map a loop ends with, error or not: every entry was there at
    the start or is a field [relationship] built for a field of the
    struct, under the name of that field. *)
Lemma RelationshipType_loop_fields (fs : list reflect.StructField) resolvers s s'
    (fields fields' : gmap string (graphql.Field FieldResolveFn Object)) (e : error) :
  RelationshipType_loop fs resolvers fields s = (s', Val (fields', e)) ->
  forall n fld, fields' !! n = Some fld ->
    fields !! n = Some fld \/
    graphql.Name fld = n /\
    exists f, f ∈ fs /\ relationship f resolvers s = (s, Val (Some fld, nil)).
Proof.
  revert fields. induction fs as [|f fs IH]; intros fields HR n fld Hn.
  { injection HR as _ <- _. by left. }
  destruct (relationship_cases f resolvers s) as [H|[H|[[fld0 H]|H]]].
  - rewrite (RelationshipType_loop_rejected _ _ _ _ _ H) in HR.
    destruct (IH _ HR n fld Hn) as [|(? & f' & ? & ?)]; [by left|].
    right. split; [done|]. exists f'. split; [by right|done].
  - rewrite (RelationshipType_loop_unknown _ _ _ _ _ H) in HR.
    injection HR as _ <- _. by left.
  - rewrite (RelationshipType_loop_accepted _ _ _ _ _ _ H) in HR.
    destruct (IH _ HR n fld Hn) as [Hin|(? & f' & ? & ?)].
    + rewrite lookup_insert in Hin. case_decide as Heq; [|by left].
      injection Hin as <-. right. split; [done|]. exists f. split; [by left|done].
    + right. split; [done|]. exists f'. split; [by right|done].
  - by rewrite (RelationshipType_loop_panic _ _ _ _ _ H) in HR.
Qed.

(** X15. Every field in the map [RelationshipType] returns, with or
    without error, is stored under its own name, is a field that
    [relationship] built for a field of the struct, and has the type of
    a registered object or of a list: never a scalar. *)
Theorem RelationshipType_fields_are_relationships entity
    (fs : list reflect.StructField) resolvers s s'
    (fields : gmap string (graphql.Field FieldResolveFn Object)) (e : error) :
  entityFields entity = Some fs ->
  RelationshipType entity resolvers s = (s', Val (fields, e)) ->
  forall n fld, fields !! n = Some fld ->
    graphql.Name fld = n /\
    (exists f, f ∈ fs /\ relationship f resolvers s = (s, Val (Some fld, nil))) /\
    ((exists o, graphql.Type_ fld = graphql.ObjectType (Some o)) \/
     (exists o, graphql.Type_ fld = graphql.NewList (graphql.ObjectType o))).
Proof.
  intros Hfs HR n fld Hn. rewrite RelationshipType_eq, Hfs in HR.
  destruct (RelationshipType_loop_fields _ _ _ _ _ _ _ HR n fld Hn)
    as [Hempty|(Hname & f & Hin & Hf)]; [by rewrite lookup_empty in Hempty|].
  split; [done|]. split; [by eauto|].
  rewrite relationship_eq in Hf. cbv zeta in Hf.
  repeat case_match; simplify_eq; simpl; eauto.
Qed.

(** The map a loop ends with when it ends without error: under each
    name, the field of the last struct field that [relationship] builds
    one for under that name. *)
Lemma RelationshipType_loop_last (fs : list reflect.StructField) resolvers s s'
    (fields fields' : gmap string (graphql.Field FieldResolveFn Object)) :
  RelationshipType_loop fs resolvers fields s = (s', Val (fields', nil)) ->
  forall n,
    fields' !! n =
    match last (omap (relationshipEntry resolvers s n) fs) with
    | Some fld => Some fld
    | None => fields !! n
    end.
Proof.
  revert fields. induction fs as [|f fs IH]; intros fields HR n.
  { by injection HR as _ <-. }
  rewrite last_omap_cons. unfold relationshipEntry at 2.
  destruct (relationship_cases f resolvers s) as [H|[H|[[fld0 H]|H]]]; rewrite H; simpl.
  - rewrite (RelationshipType_loop_rejected _ _ _ _ _ H) in HR.
    rewrite (IH _ HR n). by case_match.
  - by rewrite (RelationshipType_loop_unknown _ _ _ _ _ H) in HR.
  - rewrite (RelationshipType_loop_accepted _ _ _ _ _ _ H) in HR.
    rewrite (IH _ HR n). case_match; [done|].
    rewrite lookup_insert. by case_decide; case_bool_decide.
  - by rewrite (RelationshipType_loop_panic _ _ _ _ _ H) in HR.
Qed.

(** X16. When [RelationshipType] ends without error, its map holds under
    each name the field of the last struct field for which
    [relationship] builds a field of that name: a Struct field and a
    Slice field that come to the same name leave one entry, the later
    one. *)
Theorem RelationshipType_last_wins entity (fs : list reflect.StructField)
    resolvers s s' (fields : gmap string (graphql.Field FieldResolveFn Object)) :
  entityFields entity = Some fs ->
  RelationshipType entity resolvers s = (s', Val (fields, nil)) ->
  forall n, fields !! n = last (omap (relationshipEntry resolvers s n) fs).
Proof.
  intros Hfs HR n. rewrite RelationshipType_eq, Hfs in HR.
  rewrite (RelationshipType_loop_last _ _ _ _ _ _ HR n), lookup_empty.
  by case_match.
Qed.

End Proofs.

(** * The properties on the sample structs *)

(** An equation between closed terms, decided by evaluation. *)
Ltac by_evaluation :=
  lazymatch goal with
  | |- _ = ?rhs => vm_cast_no_check (eq_refl rhs)
  end.

Example field_title :
  field (Lib := Demo.lib) Demo.title =
  (mkFieldDefinition (Lib := Demo.lib) 1 (Some Demo.titleField), nil).
Proof. by_evaluation. Qed.

Example field_user :
  field (Lib := Demo.lib) Demo.user =
  (mkFieldDefinition (Lib := Demo.lib) 0 nil, Some errorNotSimpleFieldType).
Proof. by_evaluation. Qed.

Example FieldType_post :
  FieldType (Lib := Demo.lib) Demo.post Demo.emptyStore =
  (Demo.emptyStore, Val (Some Demo.postObject, Some Demo.postFilters, nil)).
Proof. by_evaluation. Qed.

Example relationship_tags :
  relationship (Lib := Demo.lib) Demo.tags Demo.resolvers Demo.store =
  (Demo.store, Val (Some Demo.tagsField, nil)).
Proof. by_evaluation. Qed.

Example RelationshipType_post :
  RelationshipType (Lib := Demo.lib) Demo.post Demo.resolvers Demo.store =
  (Demo.store,
   Val (<["user" := Demo.userField]> (<["tag" := Demo.tagsField]> ∅), nil)).
Proof. by_evaluation. Qed.

Example FieldType_document :
  FieldType (Lib := Demo.lib) Demo.document Demo.emptyStore =
  (Demo.emptyStore, Val (nil, nil, Some errorNotRelationshipType)).
Proof. by_evaluation. Qed.

(** Two scalar fields with one output name: the object keeps the later
    field, the filters keep the code of the earlier, filterable one. *)
Example FieldType_account :
  FieldType_loop (Lib := Demo.lib)
    [Demo.exportedName; Demo.unexportedName] ∅ ∅ =
  inr (<["name" := graphql.mkField "name" graphql.Int "" nil]> ∅,
       <["name" := 1]> ∅).
Proof. by_evaluation. Qed.

Lemma field_scalar_kind_witness :
  field (Lib := Demo.lib) Demo.title =
    (scalarDefinition Demo.title graphql.String, nil) /\
  graphql.Type_ <$> field_ (fst (field (Lib := Demo.lib) Demo.title)) =
    Some graphql.String.
Proof.
  apply (field_scalar_kind (Lib := Demo.lib) Demo.title graphql.String).
  reflexivity.
Defined.


Lemma field_unsupported_kind_witness :
  field (Lib := Demo.lib) Demo.meta =
    (mkFieldDefinition (Lib := Demo.lib) 0 nil, Some errorNotRelationshipType) /\
  Error errorNotRelationshipType = "not a relationship field type" /\
  forall entity fs s,
    entityFields entity = Some fs -> Demo.meta ∈ fs ->
    FieldType (Lib := Demo.lib) entity s =
    (s, Val (nil, nil, Some errorNotRelationshipType)).
Proof.
  apply (field_unsupported_kind (Lib := Demo.lib) Demo.meta).
  - reflexivity.
  - vm_compute. discriminate.
  - vm_compute. discriminate.
  - vm_compute. discriminate.
Defined.

(** C4 fails on a field of full type time.Time: its kind is Struct,
    [field] accepts it, and it is in the object of [FieldType]. *)
Lemma time_field_in_object :
  reflect.Kind_ (reflect.Typ Demo.created) = reflect.Struct /\
  snd (field (Lib := Demo.lib) Demo.created) <> Some errorNotSimpleFieldType /\
  field (Lib := Demo.lib) Demo.created =
    (mkFieldDefinition (Lib := Demo.lib) 5
       (Some (graphql.mkField "created" graphql.DateTime "" nil)), nil) /\
  FieldType (Lib := Demo.lib) Demo.post Demo.emptyStore =
    (Demo.emptyStore, Val (Some Demo.postObject, Some Demo.postFilters, nil)) /\
  "created" ∈ Demo.fieldNames Demo.postObject.
Proof.
  split; [reflexivity|]. split; [vm_compute; discriminate|].
  split; [by_evaluation|]. split; [by_evaluation|].
  apply elem_of_cons. by left.
Qed.

Lemma field_struct_slice_not_simple_witness :
  field (Lib := Demo.lib) Demo.user =
    (mkFieldDefinition (Lib := Demo.lib) 0 nil, Some errorNotSimpleFieldType) /\
  (forall name description pre post s,
     FieldType (Lib := Demo.lib)
       (structEntity name (pre ++ Demo.user :: post) description) s =
     FieldType (structEntity name (pre ++ post) description) s) /\
  (forall entity fs s s' object filters e,
     entityFields entity = Some fs ->
     FieldType (Lib := Demo.lib) entity s = (s', Val (Some object, filters, e)) ->
     exists config, object = NewObject config /\
       forall n fld, graphql.ConfigFields config !! n = Some fld ->
         exists f', f' ∈ fs /\ f' <> Demo.user /\ scalarField f' = Some fld /\
           graphql.Name fld = n).
Proof.
  apply (field_struct_slice_not_simple (Lib := Demo.lib) Demo.user).
  - left. reflexivity.
  - vm_compute. discriminate.
Defined.

(** C3 fails on a scalar field with an empty json name: the field is
    filterable and [field] accepts it, but [FieldType] leaves it out and
    the filters map has no entry for its name. *)
Lemma unnamed_filterable_field_has_no_filter :
  scalarField (Lib := Demo.lib) Demo.slug =
    Some (graphql.mkField "" graphql.String "" nil) /\
  filterable Demo.slug = true /\
  FieldType (Lib := Demo.lib) Demo.draft Demo.emptyStore =
    (Demo.emptyStore,
     Val (Some (Demo.mkObject "draft" "a Draft" []), Some ∅, nil)) /\
  (∅ : gmap string Z) !! "" = None.
Proof.
  split; [by_evaluation|]. split; [reflexivity|]. split; [by_evaluation|].
  apply lookup_empty.
Qed.

Lemma FieldType_filters_witness :
  (forall n, is_Some (Demo.postFilters !! n) <->
     n <> "" /\ exists f fld,
       f ∈ [Demo.title; Demo.views; Demo.created; Demo.user; Demo.tags] /\
       scalarField (Lib := Demo.lib) f = Some fld /\
       graphql.Name fld = n /\ filterable f = true) /\
  (NoDup (scalarNames (Lib := Demo.lib)
            [Demo.title; Demo.views; Demo.created; Demo.user; Demo.tags]) ->
   forall f fld,
     f ∈ [Demo.title; Demo.views; Demo.created; Demo.user; Demo.tags] ->
     scalarField (Lib := Demo.lib) f = Some fld -> graphql.Name fld <> "" ->
     Demo.postFilters !! graphql.Name fld =
     if filterable f
     then Some (filterCodeOf (Lib := Demo.lib) (graphql.Type_ fld)) else None).
Proof.
  apply (FieldType_filters (Lib := Demo.lib) Demo.post
           [Demo.title; Demo.views; Demo.created; Demo.user; Demo.tags]
           Demo.emptyStore Demo.emptyStore (Some Demo.postObject) Demo.postFilters).
  - vm_compute. repeat split; discriminate.
  - reflexivity.
  - by_evaluation.
Defined.


Lemma classifiers_exclusive_witness :
  ~ (snd (field (Lib := Demo.lib) Demo.created) = nil /\
     exists s' fld,
       relationship (Lib := Demo.lib) Demo.created Demo.resolvers Demo.store =
       (s', Val (fld, nil))).
Proof.
  apply (classifiers_exclusive (Lib := Demo.lib) Demo.created Demo.resolvers Demo.store).
  intros _. reflexivity.
Defined.

Lemma time_field_is_scalar_witness :
  field (Lib := Demo.lib) Demo.created =
    (scalarDefinition Demo.created graphql.DateTime, nil) /\
  (filterable Demo.created = true ->
   filter (fst (field (Lib := Demo.lib) Demo.created)) = 5) /\
  (forall resolvers s,
     relationship (Lib := Demo.lib) Demo.created resolvers s =
     (s, Val (nil, Some errorNotRelationshipType))) /\
  (forall name description pre post resolvers s,
     RelationshipType (Lib := Demo.lib)
       (structEntity name (pre ++ Demo.created :: post) description) resolvers s =
     RelationshipType (structEntity name (pre ++ post) description) resolvers s).
Proof.
  apply (time_field_is_scalar (Lib := Demo.lib) Demo.created).
  - reflexivity.
  - by_evaluation.
Defined.



(** ** The further properties on the sample structs *)

Lemma FieldType_outcomes_witness :
  (FieldType (Lib := Demo.lib) Demo.post Demo.emptyStore =
     (Demo.emptyStore, Val (nil, nil, Some errorNotRelationshipType)) /\
   exists f, f ∈ [Demo.title; Demo.views; Demo.created; Demo.user; Demo.tags] /\
     snd (field (Lib := Demo.lib) f) = Some errorNotRelationshipType) \/
  ((exists object filters,
      FieldType (Lib := Demo.lib) Demo.post Demo.emptyStore =
      (Demo.emptyStore, Val (Some object, Some filters, nil))) /\
   forall f, f ∈ [Demo.title; Demo.views; Demo.created; Demo.user; Demo.tags] ->
     snd (field (Lib := Demo.lib) f) <> Some errorNotRelationshipType).
Proof.
  apply (FieldType_outcomes (Lib := Demo.lib) Demo.post
           [Demo.title; Demo.views; Demo.created; Demo.user; Demo.tags]
           Demo.emptyStore).
  reflexivity.
Defined.

Lemma panic_without_struct_witness :
  RelationshipType (Lib := Demo.lib) nil Demo.resolvers Demo.store =
  (Demo.store, Panic).
Proof.
  apply (proj2 (panic_without_struct (Lib := Demo.lib) nil Demo.resolvers Demo.store)).
  reflexivity.
Defined.

Lemma FieldType_last_wins_witness :
  exists fields,
    Demo.postObject =
      NewObject (Library := Demo.lib)
        (graphql.mkObjectConfig (Demo.lower "Post") "a Post" fields) /\
    (forall n, fields !! n =
       last (omap (fieldEntry (Lib := Demo.lib) n)
               [Demo.title; Demo.views; Demo.created; Demo.user; Demo.tags])) /\
    (forall n, Demo.postFilters !! n =
       last (omap (filterEntry (Lib := Demo.lib) n)
               [Demo.title; Demo.views; Demo.created; Demo.user; Demo.tags])).
Proof.
  apply (FieldType_last_wins (Lib := Demo.lib) "Post" "a Post"
           [Demo.title; Demo.views; Demo.created; Demo.user; Demo.tags]
           Demo.emptyStore Demo.emptyStore Demo.postObject Demo.postFilters).
  by_evaluation.
Defined.

Lemma filters_within_fields_witness :
  exists config, Demo.postObject = NewObject (Library := Demo.lib) config /\
    forall n c, Demo.postFilters !! n = Some c ->
      c <> 0 /\ n <> "" /\ is_Some (graphql.ConfigFields config !! n).
Proof.
  apply (filters_within_fields (Lib := Demo.lib) Demo.post Demo.emptyStore
           Demo.emptyStore Demo.postObject Demo.postFilters nil).
  by_evaluation.
Defined.

Lemma object_fields_are_scalars_witness :
  exists config, Demo.postObject = NewObject (Library := Demo.lib) config /\
    forall n fld, graphql.ConfigFields config !! n = Some fld ->
      graphql.Name fld = n /\ n <> "" /\
      graphql.Type_ fld ∈
        [graphql.String; graphql.Boolean; graphql.Int; graphql.Float;
         graphql.DateTime] /\
      graphql.Description fld = "" /\
      graphql.Resolve fld = nil.
Proof.
  apply (object_fields_are_scalars (Lib := Demo.lib) Demo.post Demo.emptyStore
           Demo.emptyStore Demo.postObject (Some Demo.postFilters) nil).
  by_evaluation.
Defined.

Lemma field_depends_on_type_witness :
  snd (field (Lib := Demo.lib) Demo.title) = snd (field (Lib := Demo.lib) Demo.slug) /\
  graphql.Type_ <$> field_ (fst (field (Lib := Demo.lib) Demo.title)) =
  graphql.Type_ <$> field_ (fst (field (Lib := Demo.lib) Demo.slug)).
Proof.
  apply (field_depends_on_type (Lib := Demo.lib) Demo.title Demo.slug).
  reflexivity.
Defined.

Lemma relationship_field_xor_error_witness :
  (Some Demo.userField = nil <-> @nil err <> nil) /\
  @nil err <> Some errorNotSimpleFieldType.
Proof.
  apply (relationship_field_xor_error (Lib := Demo.lib) Demo.user Demo.resolvers
           Demo.store Demo.store (Some Demo.userField) nil).
  by_evaluation.
Defined.

Lemma relationship_not_relationship_iff_witness :
  exists s' fld,
    relationship (Lib := Demo.lib) Demo.created Demo.resolvers Demo.store =
    (s', Val (fld, Some errorNotRelationshipType)).
Proof.
  apply (relationship_not_relationship_iff (Lib := Demo.lib) Demo.created
           Demo.resolvers Demo.store).
  split; [vm_compute; discriminate | left; reflexivity].
Defined.

Lemma relationship_succeeds_iff_witness :
  exists r impl, Demo.resolvers = Some r /\
    (reflect.Kind_ (reflect.Typ Demo.user) = reflect.Slice /\
     entitiesMap Demo.store
       !! Demo.lower (Demo.singular (Demo.lower (reflect.Name Demo.user))) =
       Some (Some impl) \/
     reflect.Kind_ (reflect.Typ Demo.user) = reflect.Struct /\
     fulltype Demo.user <> "time.Time" /\
     entitiesMap Demo.store !! Demo.lower (reflect.Name Demo.user) = Some (Some impl) /\
     exists o, entitiesObjects Demo.store !! Demo.lower (reflect.Name Demo.user) =
               Some (Some o)).
Proof.
  apply (proj1 (relationship_succeeds_iff (Lib := Demo.lib) Demo.user
                  Demo.resolvers Demo.store)).
  exists Demo.store, Demo.userField. by_evaluation.
Defined.

Lemma relationship_panics_iff_witness :
  relationship (Lib := Demo.lib) Demo.tags Demo.resolvers Demo.emptyStore =
  (Demo.emptyStore, Panic).
Proof.
  apply (proj2 (relationship_panics_iff (Lib := Demo.lib) Demo.tags
                  Demo.resolvers Demo.emptyStore)).
  left. split; [reflexivity|]. right. reflexivity.
Defined.

Lemma not_simple_is_relationship_material_witness :
  ~ exists s' fld,
      relationship (Lib := Demo.lib) Demo.user Demo.resolvers Demo.emptyStore =
      (s', Val (fld, Some errorNotRelationshipType)).
Proof.
  apply (not_simple_is_relationship_material (Lib := Demo.lib) Demo.user
           Demo.resolvers Demo.emptyStore).
  reflexivity.
Defined.

Lemma RelationshipType_outcomes_witness :
  ((exists fields,
      RelationshipType (Lib := Demo.lib) Demo.post Demo.resolvers Demo.store =
      (Demo.store, Val (fields, nil))) /\
   forall f, f ∈ [Demo.title; Demo.views; Demo.created; Demo.user; Demo.tags] ->
     relationship (Lib := Demo.lib) f Demo.resolvers Demo.store =
       (Demo.store, Val (nil, Some errorNotRelationshipType)) \/
     exists fld, relationship (Lib := Demo.lib) f Demo.resolvers Demo.store =
                 (Demo.store, Val (Some fld, nil))) \/
  ((exists fields,
      RelationshipType (Lib := Demo.lib) Demo.post Demo.resolvers Demo.store =
      (Demo.store, Val (fields, Some errorUnknownFieldType))) /\
   exists f, f ∈ [Demo.title; Demo.views; Demo.created; Demo.user; Demo.tags] /\
     relationship (Lib := Demo.lib) f Demo.resolvers Demo.store =
     (Demo.store, Val (nil, Some errorUnknownFieldType))) \/
  (RelationshipType (Lib := Demo.lib) Demo.post Demo.resolvers Demo.store =
     (Demo.store, Panic) /\
   exists f, f ∈ [Demo.title; Demo.views; Demo.created; Demo.user; Demo.tags] /\
     relationship (Lib := Demo.lib) f Demo.resolvers Demo.store = (Demo.store, Panic)).
Proof.
  apply (RelationshipType_outcomes (Lib := Demo.lib) Demo.post
           [Demo.title; Demo.views; Demo.created; Demo.user; Demo.tags]
           Demo.resolvers Demo.store).
  reflexivity.
Defined.

Lemma RelationshipType_stops_at_unknown_witness :
  RelationshipType (Lib := Demo.lib)
    (structEntity "Post" ([Demo.title; Demo.user] ++ Demo.author :: [Demo.tags])
       "a Post")
    Demo.resolvers Demo.store =
  (Demo.store, Val (<["user" := Demo.userField]> ∅, Some errorUnknownFieldType)).
Proof.
  apply (RelationshipType_stops_at_unknown (Lib := Demo.lib) "Post" "a Post"
           [Demo.title; Demo.user] [Demo.tags] Demo.author Demo.resolvers Demo.store
           (<["user" := Demo.userField]> ∅)).
  - by_evaluation.
  - by_evaluation.
Defined.

Lemma RelationshipType_fields_are_relationships_witness :
  graphql.Name Demo.userField = "user" /\
  (exists f, f ∈ [Demo.title; Demo.views; Demo.created; Demo.user; Demo.tags] /\
     relationship (Lib := Demo.lib) f Demo.resolvers Demo.store =
     (Demo.store, Val (Some Demo.userField, nil))) /\
  ((exists o, graphql.Type_ Demo.userField = graphql.ObjectType (Some o)) \/
   (exists o, graphql.Type_ Demo.userField = graphql.NewList (graphql.ObjectType o))).
Proof.
  apply (RelationshipType_fields_are_relationships (Lib := Demo.lib) Demo.post
           [Demo.title; Demo.views; Demo.created; Demo.user; Demo.tags]
           Demo.resolvers Demo.store Demo.store Demo.postRelationships nil).
  - reflexivity.
  - by_evaluation.
  - by_evaluation.
Defined.

Lemma RelationshipType_last_wins_witness :
  Demo.postRelationships !! "tag" =
  last (omap (relationshipEntry (Lib := Demo.lib) Demo.resolvers Demo.store "tag")
          [Demo.title; Demo.views; Demo.created; Demo.user; Demo.tags]).
Proof.
  apply (RelationshipType_last_wins (Lib := Demo.lib) Demo.post
           [Demo.title; Demo.views; Demo.created; Demo.user; Demo.tags]
           Demo.resolvers Demo.store Demo.store Demo.postRelationships).
  - reflexivity.
  - by_evaluation.
Defined.
